(** * Dumbbell TCP experiment: flow attribution, statistics and CSV report

    Shallow embedding of [NS3/dumbbell-topology.cpp]: [CalculateStats],
    the flow loop of [ProcessFlowMonitorResults], [WriteResultsCsv] and the
    schedule built in [main].

    - [double] is IEEE 754 binary64, through the executable specification
      [SpecFloat] of the standard library (round to nearest, ties to even);
    - [vector<T>] is [list T]; [v[i]] is a lookup that has no value out of
      range (undefined behaviour in C++), so the embedded functions return
      [option];
    - [ofstream] is the string written so far. *)

From Stdlib Require Import ZArith String Ascii Bool Lia.
From Stdlib Require Import Floats.SpecFloat Numbers.DecimalString.
From stdpp Require Import base list.

Local Open Scope Z_scope.

(** ** binary64 arithmetic *)

Module Double.

Definition prec : Z := 53.
Definition emax : Z := 1024.

Definition double : Type := spec_float.

Definition add : double -> double -> double := SFadd prec emax.
Definition sub : double -> double -> double := SFsub prec emax.
Definition mul : double -> double -> double := SFmul prec emax.
Definition div : double -> double -> double := SFdiv prec emax.
Definition sqrt : double -> double := SFsqrt prec emax.

(** [a < b], [a <= b] and [a >= b] on doubles: false when either side
    is a NaN. *)
Definition ltb : double -> double -> bool := SFltb.
Definition leb : double -> double -> bool := SFleb.
Definition geb (a b : double) : bool := SFleb b a.

(** Conversion of an integer ([int] literal, [size_t], [uint64_t]) to
    double, correctly rounded. *)
Definition of_Z (z : Z) : double := binary_normalize prec emax z 0 false.

Definition zero : double := S754_zero false.

(** [pow(x, 2)]: the correctly rounded square. *)
Definition pow_2 (x : double) : double := mul x x.

Definition is_nan (x : double) : bool :=
  match x with S754_nan => true | _ => false end.

End Double.

Import Double.

Declare Scope double_scope.
Delimit Scope double_scope with D.
Bind Scope double_scope with double.
Infix "+" := add : double_scope.
Infix "-" := sub : double_scope.
Infix "*" := mul : double_scope.
Infix "/" := div : double_scope.
Infix "<?" := ltb : double_scope.
Infix ">=?" := geb (at level 70) : double_scope.

(** ** The experiment data structure *)

Record ExperimentData : Type := mkExperimentData {
  throughputs : list double;
  flowTimes : list double;
  meanThroughput : double;
  stddevThroughput : double;
  meanFlowTime : double;
  stddevFlowTime : double
}.

(** ** [CalculateStats] *)

(** [for (const auto &val : values) body]: the loop threads its state
    through the elements in order. *)
Definition for_each {A S : Type} (xs : list A) (body : S -> A -> S) (s : S) : S :=
  fold_left body xs s.

(** The two reference parameters [mean] and [stddev] are the result. *)
Definition CalculateStats (values : list double) : double * double :=
  let mean := zero in
  let stddev := zero in
  if bool_decide (values = [])
  then (mean, stddev)
  else
    let mean := for_each values (fun mean val => mean + val)%D mean in
    let mean := (mean / of_Z (Z.of_nat (length values)))%D in
    let stddev :=
      for_each values (fun stddev val => stddev + pow_2 (val - mean))%D stddev in
    let stddev := sqrt (stddev / of_Z (Z.of_nat (length values)))%D in
    (mean, stddev).

(** The statistics as the specification words them. [sum] adds from the
    left, starting at zero. *)
Module StatsSpec.

Fixpoint sum_from (acc : double) (values : list double) : double :=
  match values with
  | [] => acc
  | v :: rest => sum_from (acc + v)%D rest
  end.

Definition sum (values : list double) : double := sum_from zero values.

Definition len (values : list double) : double :=
  of_Z (Z.of_nat (length values)).

Definition mean (values : list double) : double :=
  (sum values / len values)%D.

Definition stddev (values : list double) : double :=
  let m := mean values in
  sqrt (sum (map (fun v => pow_2 (v - m)%D) values) / len values)%D.

Definition stats (values : list double) : double * double :=
  match values with
  | [] => (zero, zero)
  | _ :: _ => (mean values, stddev values)
  end.

End StatsSpec.

(** ** Flow records and topology *)

(** [ns3::Ipv4Address]: the 32-bit address; [operator==] compares it. *)
Record Ipv4Address : Type := mkIpv4Address { m_address : Z }.

Definition Ipv4Address_eqb (a b : Ipv4Address) : bool :=
  m_address a =? m_address b.

(** [Ipv4FlowClassifier::FiveTuple]. *)
Record FiveTuple : Type := mkFiveTuple {
  sourceAddress : Ipv4Address;
  destinationAddress : Ipv4Address;
  protocol : Z;
  sourcePort : Z;
  destinationPort : Z
}.

(** The fields of [FlowMonitor::FlowStats] that the program reads.
    [rxBytes] is a [uint64_t]; each time field holds the double that
    [GetSeconds()] returns for it. *)
Record FlowStats : Type := mkFlowStats {
  rxBytes : Z;
  timeFirstTxPacket : double;
  timeLastTxPacket : double;
  timeLastRxPacket : double
}.

Definition FlowId : Type := Z.

(** [PointToPointDumbbellHelper], reduced to the addresses of its left
    leaves; [GetLeftIpv4Address(i)] has no value past the last leaf. *)
Record PointToPointDumbbellHelper : Type := mkDumbbell {
  leftLeafAddresses : list Ipv4Address
}.

Definition GetLeftIpv4Address (d : PointToPointDumbbellHelper) (i : nat)
  : option Ipv4Address :=
  leftLeafAddresses d !! i.

(** ** [ProcessFlowMonitorResults] *)

Definition set_throughputs (d : ExperimentData) (v : list double) : ExperimentData :=
  mkExperimentData v (flowTimes d) (meanThroughput d) (stddevThroughput d)
                   (meanFlowTime d) (stddevFlowTime d).

Definition set_flowTimes (d : ExperimentData) (v : list double) : ExperimentData :=
  mkExperimentData (throughputs d) v (meanThroughput d) (stddevThroughput d)
                   (meanFlowTime d) (stddevFlowTime d).

(** [expData[k].throughputs.push_back(v)] *)
Definition push_throughput (k : nat) (v : double) (expData : list ExperimentData)
  : option (list ExperimentData) :=
  d ← expData !! k;
  Some (<[k := set_throughputs d (throughputs d ++ [v])]> expData).

(** [expData[k].flowTimes.push_back(v)] *)
Definition push_flowTime (k : nat) (v : double) (expData : list ExperimentData)
  : option (list ExperimentData) :=
  d ← expData !! k;
  Some (<[k := set_flowTimes d (flowTimes d ++ [v])]> expData).

(** The two [push_back]s of one branch. *)
Definition push_samples (k : nat) (tputMbps fct : double)
    (expData : list ExperimentData) : option (list ExperimentData) :=
  expData ← push_throughput k tputMbps expData;
  push_flowTime k fct expData.

(** [tuple.sourceAddress == dumbbells[n].GetLeftIpv4Address(i)] *)
Definition source_is_left (dumbbells : list PointToPointDumbbellHelper)
    (n i : nat) (tuple : FiveTuple) : option bool :=
  d ← dumbbells !! n;
  a ← GetLeftIpv4Address d i;
  Some (Ipv4Address_eqb (sourceAddress tuple) a).

(** [a || b] and [a && b], where [b] is evaluated only when needed. *)
Definition lazy_or (a : bool) (b : option bool) : option bool :=
  if a then Some true else b.

Definition lazy_and (a : bool) (b : option bool) : option bool :=
  if a then b else Some false.

(** The body of [if (startTime >= expStart && startTime < expEnd)], up to
    its [break]. *)
Definition attribute (dumbbells : list PointToPointDumbbellHelper)
    (expIdx : nat) (tuple : FiveTuple) (tputMbps fct : double)
    (expData : list ExperimentData) : option (list ExperimentData) :=
  if (expIdx <=? 1)%nat then
    c ← lazy_or (expIdx =? 0)%nat (source_is_left dumbbells 0 0 tuple);
    if c : bool then push_samples (expIdx * 2) tputMbps fct expData
    else
      c ← lazy_and (expIdx =? 1)%nat (source_is_left dumbbells 0 1 tuple);
      if c : bool then push_samples (expIdx * 2 + 1) tputMbps fct expData
      else Some expData
  else if (expIdx <=? 3)%nat then
    c ← lazy_or (expIdx =? 2)%nat (source_is_left dumbbells 1 0 tuple);
    if c : bool then push_samples (expIdx * 2) tputMbps fct expData
    else
      c ← lazy_and (expIdx =? 3)%nat (source_is_left dumbbells 1 1 tuple);
      if c : bool then push_samples (expIdx * 2 + 1) tputMbps fct expData
      else Some expData
  else if (expIdx =? 4)%nat then
    c ← source_is_left dumbbells 2 0 tuple;
    if c : bool then push_samples (expIdx * 2) tputMbps fct expData
    else
      c ← source_is_left dumbbells 2 1 tuple;
      if c : bool then push_samples (expIdx * 2 + 1) tputMbps fct expData
      else Some expData
  else Some expData.

Definition in_window (startTime : double) (w : double * double) : bool :=
  (startTime >=? fst w)%D && (startTime <? snd w)%D.

(** [for (size_t expIdx = ...; expIdx < expTimings.size(); expIdx++)], from
    index [expIdx] on; [rest] holds the windows not yet visited. *)
Fixpoint window_loop (dumbbells : list PointToPointDumbbellHelper)
    (expIdx : nat) (rest : list (double * double))
    (tuple : FiveTuple) (tputMbps fct startTime : double)
    (expData : list ExperimentData) : option (list ExperimentData) :=
  match rest with
  | [] => Some expData
  | w :: rest' =>
      let expStart := fst w in
      let expEnd := snd w in
      if (startTime >=? expStart)%D && (startTime <? expEnd)%D
      then attribute dumbbells expIdx tuple tputMbps fct expData
      else window_loop dumbbells (S expIdx) rest' tuple tputMbps fct startTime expData
  end.

(** The derived measurements of a record, as the specification words
    them. *)
Definition throughput_of (st : FlowStats) : double :=
  (of_Z (rxBytes st) * of_Z 8
   / (timeLastRxPacket st - timeFirstTxPacket st) / of_Z 1000000)%D.

Definition completion_time_of (st : FlowStats) : double :=
  (timeLastTxPacket st - timeFirstTxPacket st)%D.

(** The body of the loop over the flows. *)
Definition process_flow (dumbbells : list PointToPointDumbbellHelper)
    (expTimings : list (double * double))
    (tuple : FiveTuple) (st : FlowStats)
    (expData : list ExperimentData) : option (list ExperimentData) :=
  if 1000000 <? rxBytes st then
    let tputMbps :=
      (of_Z (rxBytes st) * of_Z 8
       / (timeLastRxPacket st - timeFirstTxPacket st) / of_Z 1000000)%D in
    let fct := (timeLastTxPacket st - timeFirstTxPacket st)%D in
    let startTime := timeFirstTxPacket st in
    window_loop dumbbells 0 expTimings tuple tputMbps fct startTime expData
  else Some expData.

(** The loop over [stats], a map iterated in the order of its keys;
    [classifier] is [classifier->FindFlow]. *)
Fixpoint flow_loop (classifier : FlowId -> FiveTuple)
    (dumbbells : list PointToPointDumbbellHelper)
    (expTimings : list (double * double))
    (stats : list (FlowId * FlowStats))
    (expData : list ExperimentData) : option (list ExperimentData) :=
  match stats with
  | [] => Some expData
  | it :: stats' =>
      let tuple := classifier (fst it) in
      expData ← process_flow dumbbells expTimings tuple (snd it) expData;
      flow_loop classifier dumbbells expTimings stats' expData
  end.

(** The body of the last loop: both calls of [CalculateStats] on one
    bucket. *)
Definition reduce (data : ExperimentData) : ExperimentData :=
  let '(meanT, stddevT) := CalculateStats (throughputs data) in
  let '(meanF, stddevF) := CalculateStats (flowTimes data) in
  mkExperimentData (throughputs data) (flowTimes data) meanT stddevT meanF stddevF.

Definition ProcessFlowMonitorResults
    (stats : list (FlowId * FlowStats)) (classifier : FlowId -> FiveTuple)
    (dumbbells : list PointToPointDumbbellHelper)
    (expTimings : list (double * double))
    (expData : list ExperimentData) : option (list ExperimentData) :=
  expData ← flow_loop classifier dumbbells expTimings stats expData;
  Some (map reduce expData).

(** ** The schedule and the store of [main] *)

(** [for (int i = 0; i < 5; i++)] of [main], with [n] iterations left. *)
Fixpoint schedule_loop (n : nat) (expStart : double)
    (expTimings : list (double * double)) : list (double * double) :=
  match n with
  | O => expTimings
  | S n' =>
      let expEnd := (expStart + of_Z 30)%D in
      let expTimings := expTimings ++ [(expStart, expEnd)] in
      let expStart := (expEnd + of_Z 1)%D in
      schedule_loop n' expStart expTimings
  end.

Definition timeOffset : double := of_Z 1.

Definition main_expTimings : list (double * double) :=
  schedule_loop 5 timeOffset [].

(** [vector<ExperimentData> experimentData(10)]: ten value-initialised
    buckets. *)
Definition empty_bucket : ExperimentData :=
  mkExperimentData [] [] zero zero zero zero.

Definition main_experimentData : list ExperimentData := replicate 10 empty_bucket.

(** The five calls of [SetupExperiment] in [main]: which dumbbell hosts the
    experiment, and whether it has a second sender. The senders are
    installed on the left leaves 0 and (with two senders) 1 of that
    dumbbell. *)
Record ExperimentSetup : Type := mkSetup {
  dumbbellIdx : nat;
  twoSenders : bool
}.

Definition main_experiments : list ExperimentSetup :=
  [ mkSetup 0 false; mkSetup 0 true; mkSetup 1 false; mkSetup 1 true;
    mkSetup 2 true ].

(** [main] builds three dumbbells, each with two left leaves. *)
Definition topology_ok (dumbbells : list PointToPointDumbbellHelper) : Prop :=
  (3 <= length dumbbells)%nat
  /\ Forall (fun d => (2 <= length (leftLeafAddresses d))%nat) dumbbells.

(** ** Vocabulary of the statements *)

(** Index in the store of the bucket (experiment, stream slot). *)
Definition bucket (expIdx slot : nat) : nat := expIdx * 2 + slot.

(** A bucket after one more flow was appended to it. *)
Definition add_sample (tputMbps fct : double) (d : ExperimentData) : ExperimentData :=
  mkExperimentData (throughputs d ++ [tputMbps]) (flowTimes d ++ [fct])
                   (meanThroughput d) (stddevThroughput d)
                   (meanFlowTime d) (stddevFlowTime d).

(** A bucket after the samples of the flow [st] were appended to it. *)
Definition record_sample (st : FlowStats) : ExperimentData -> ExperimentData :=
  add_sample (throughput_of st) (completion_time_of st).

Definition balanced (d : ExperimentData) : Prop :=
  length (throughputs d) = length (flowTimes d).

(** No instant lies in two windows of the schedule. *)
Definition windows_disjoint (expTimings : list (double * double)) : Prop :=
  forall (i j : nat) (wi wj : double * double) (t : double),
    i <> j ->
    expTimings !! i = Some wi -> expTimings !! j = Some wj ->
    in_window t wi = true -> in_window t wj = false.

(** Every window starts no earlier than each window before it ends. *)
Fixpoint separated (expTimings : list (double * double)) : bool :=
  match expTimings with
  | [] => true
  | w :: rest =>
      forallb (fun w' => negb (fst w' <? snd w)%D) rest && separated rest
  end.

(** The windows follow the recurrence of the schedule from [expStart] on:
    each one starts at [expStart], lasts 30, and the next one starts 1
    after its end. *)
Fixpoint chained (expStart : double) (expTimings : list (double * double)) : Prop :=
  match expTimings with
  | [] => True
  | w :: rest =>
      fst w = expStart /\ snd w = (fst w + of_Z 30)%D
      /\ chained (snd w + of_Z 1)%D rest
  end.

(** The first window of the schedule that holds [t], if any. *)
Definition first_window (expTimings : list (double * double)) (t : double)
    (expIdx : nat) : Prop :=
  (exists w, expTimings !! expIdx = Some w /\ in_window t w = true)
  /\ forall j w, (j < expIdx)%nat -> expTimings !! j = Some w -> in_window t w = false.

(** ** Sample inputs *)

Module Sample.

(** Left-leaf addresses 10.n.1.1 and 10.n.1.5 of the three dumbbells,
    and an address that belongs to none. *)
Definition addr (a b c d : Z) : Ipv4Address :=
  mkIpv4Address (((a * 256 + b) * 256 + c) * 256 + d).

Definition dumbbells : list PointToPointDumbbellHelper :=
  [ mkDumbbell [addr 10 1 1 1; addr 10 1 1 5];
    mkDumbbell [addr 10 2 1 1; addr 10 2 1 5];
    mkDumbbell [addr 10 3 1 1; addr 10 3 1 5] ].

Definition stranger : Ipv4Address := addr 192 168 0 7.

Definition tuple_from (src : Ipv4Address) : FiveTuple :=
  mkFiveTuple src (addr 10 1 2 1) 6 49153 9001.

(** A flow of [bytes] bytes sent from instant [t0] to [t0 + 1]. *)
Definition flow (bytes t0 : Z) : FlowStats :=
  mkFlowStats bytes (of_Z t0) (of_Z (t0 + 1)) (of_Z (t0 + 1)).

(** Three 10 MB flows of experiment 1, ten seconds apart, one second
    each. *)
Definition stats : list (FlowId * FlowStats) :=
  [ (1, flow 10000000 1); (2, flow 10000000 11); (3, flow 10000000 21) ].

Definition classifier (id : FlowId) : FiveTuple := tuple_from (addr 10 1 1 1).

End Sample.

(** ** Formatting of numbers on a stream *)

Module Fmt.

(** Decimal digits of a natural number, most significant first. *)
Definition digits (n : Z) : list ascii :=
  list_ascii_of_string (NilZero.string_of_uint (N.to_uint (Z.to_N n))).

(** [operator<<(int)]. *)
Definition fmt_int (z : Z) : string := NilZero.string_of_int (Z.to_int z).

Fixpoint strip_trailing_zeros (ds : list ascii) : list ascii :=
  match ds with
  | [] => []
  | c :: rest =>
      match strip_trailing_zeros rest with
      | [] => if Ascii.eqb c "0"%char then [] else [c]
      | rest' => c :: rest'
      end
  end.

(** [n / d] rounded to the nearest integer, ties to even. *)
Definition round_half_even (n d : Z) : Z :=
  let q := n / d in
  let r := n mod d in
  match 2 * r ?= d with
  | Lt => q
  | Gt => q + 1
  | Eq => if Z.even q then q else q + 1
  end.

(** [num / den * 10^s], rounded. *)
Definition scaled (num den s : Z) : Z :=
  if 0 <=? s then round_half_even (num * 10 ^ s) den
  else round_half_even num (den * 10 ^ (- s)).

(** The least [k >= 1] with [num * 10^k >= den], for [num < den]. *)
Fixpoint small_exponent (fuel : nat) (num den k : Z) : Z :=
  match fuel with
  | O => k
  | S fuel' =>
      if den <=? num * 10 then k
      else small_exponent fuel' (num * 10) den (k + 1)
  end.

(** The decimal exponent of [num / den]: the floor of its logarithm in
    base ten. *)
Definition decimal_exponent (num den : Z) : Z :=
  if den <=? num then Z.of_nat (length (digits (num / den))) - 1
  else - small_exponent (Z.to_nat (Z.log2 den) + 1) num den 1.

(** The default precision of a stream. *)
Definition precision : Z := 6.

Definition exponent_digits (n : Z) : list ascii :=
  if n <? 10 then "0"%char :: digits n else digits n.

Definition fraction (frac : list ascii) : list ascii :=
  match frac with
  | [] => []
  | _ :: _ => "."%char :: frac
  end.

(** The positive number [num / den] in the general format ([%g]) with
    [precision] significant digits: fixed notation when the decimal
    exponent is in [-4, precision), scientific notation otherwise;
    trailing zeros of the fraction are removed. *)
Definition fmt_g (num den : Z) : list ascii :=
  let P := precision in
  let X := decimal_exponent num den in
  let q := scaled num den (P - 1 - X) in
  let '(X, q) := if 10 ^ P <=? q then (X + 1, q / 10) else (X, q) in
  let ds := digits q in
  if (X <? -4) || (P <=? X) then
    take 1 ds ++ fraction (strip_trailing_zeros (drop 1 ds))
    ++ "e"%char :: (if X <? 0 then "-"%char else "+"%char) :: exponent_digits (Z.abs X)
  else if X <? 0 then
    "0"%char :: "."%char :: replicate (Z.to_nat (- X - 1)) "0"%char ++ strip_trailing_zeros ds
  else
    take (Z.to_nat (X + 1)) ds
    ++ fraction (strip_trailing_zeros (drop (Z.to_nat (X + 1)) ds)).

Definition sign (s : bool) : list ascii := if s then ["-"%char] else [].

(** [operator<<(double)] on a stream in its default state. The sign of
    a NaN is not part of [double]; it is written without one. *)
Definition fmt_double (x : double) : string :=
  string_of_list_ascii
    match x with
    | S754_zero s => sign s ++ ["0"%char]
    | S754_infinity s => sign s ++ ["i"%char; "n"%char; "f"%char]
    | S754_nan => ["n"%char; "a"%char; "n"%char]
    | S754_finite s m e =>
        sign s ++ (if 0 <=? e then fmt_g (Zpos m * 2 ^ e) 1
                   else fmt_g (Zpos m) (2 ^ (- e)))
    end.

End Fmt.

(** ** [WriteResultsCsv] *)

Local Open Scope string_scope.

(** An output file stream: the characters written so far. *)
Definition ofstream : Type := string.

(** [operator<<] is overloaded on the type of what is written. *)
Class Insertable (A : Type) : Type := render : A -> string.

#[export] Instance insert_string : Insertable string := fun s => s.
#[export] Instance insert_int : Insertable Z := Fmt.fmt_int.
#[export] Instance insert_double : Insertable double := Fmt.fmt_double.

Definition put {A : Type} `{Insertable A} (csvFile : ofstream) (x : A) : ofstream :=
  csvFile ++ render x.

Notation "f << x" := (put f x) (at level 50, left associativity).

(** [endl]: a line feed (and a flush, which the content does not show). *)
Definition endl : string := String (ascii_of_nat 10) "".

(** [(int) n] for a [size_t] value: reduction modulo 2^32 into the range of
    [int]. *)
Definition int_of_size_t (n : Z) : Z := (n + 2 ^ 31) mod 2 ^ 32 - 2 ^ 31.

(** [for (int i = ...; i < bound; i++) csvFile << values[i] << ","], from
    [i] on, with [n] iterations left. *)
Fixpoint sample_loop (n i : nat) (values : list double) (csvFile : ofstream)
  : option ofstream :=
  match n with
  | O => Some csvFile
  | S n' =>
      v ← values !! i;
      sample_loop n' (S i) values (csvFile << v << ",")
  end.

(** The loop over the first samples of one sequence, whose bound is
    [min(3, (int)values.size())]. *)
Definition write_samples (values : list double) (csvFile : ofstream)
  : option ofstream :=
  let bound := Z.min 3 (int_of_size_t (Z.of_nat (length values))) in
  sample_loop (Z.to_nat bound) 0 values csvFile.

(** The body of the first loop: the throughput row of experiment [exp]. *)
Definition write_throughput_row (expData : list ExperimentData) (exp : Z)
    (csvFile : ofstream) : option ofstream :=
  let csvFile := csvFile << "th_" << (exp + 1) << "," in
  let firstFlowIdx := exp * 2 in
  let secondFlowIdx := exp * 2 + 1 in
  first ← expData !! Z.to_nat firstFlowIdx;
  csvFile ← write_samples (throughputs first) csvFile;
  let csvFile :=
    csvFile << meanThroughput first << "," << stddevThroughput first << ",Mbps," in
  if ((exp =? 0) || (exp =? 2))%Z then Some (csvFile << endl)
  else
    second ← expData !! Z.to_nat secondFlowIdx;
    csvFile ← write_samples (throughputs second) csvFile;
    Some (csvFile << meanThroughput second << ","
                  << stddevThroughput second << ",Mbps" << endl).

(** The body of the second loop: the completion-time row of experiment
    [exp]. *)
Definition write_flow_time_row (expData : list ExperimentData) (exp : Z)
    (csvFile : ofstream) : option ofstream :=
  let csvFile := csvFile << "afct_" << (exp + 1) << "," in
  let firstFlowIdx := exp * 2 in
  let secondFlowIdx := exp * 2 + 1 in
  first ← expData !! Z.to_nat firstFlowIdx;
  csvFile ← write_samples (flowTimes first) csvFile;
  let csvFile :=
    csvFile << meanFlowTime first << "," << stddevFlowTime first << ",sec" in
  if ((exp =? 0) || (exp =? 2))%Z then Some (csvFile << endl)
  else
    let csvFile := csvFile << "," in
    second ← expData !! Z.to_nat secondFlowIdx;
    csvFile ← write_samples (flowTimes second) csvFile;
    Some (csvFile << meanFlowTime second << ","
                  << stddevFlowTime second << ",sec" << endl).

(** [for (int exp = lo; exp < hi; exp++) body]. *)
Definition for_range {S : Type} (lo hi : Z) (body : Z -> S -> option S) (s : S)
  : option S :=
  foldl (fun (s : option S) (exp : Z) => s ≫= body exp) (Some s) (seqZ lo (hi - lo)).

Definition header : string :=
  "exp,r1_s1,r2_s1,r3_s1,avg_s1,std_s1,unit_s1,r1_s2,r2_s2,r3_s2,avg_s2,std_s2,unit_s2".

(** The content of the file [filename] once it is closed. *)
Definition WriteResultsCsv (filename : string) (expData : list ExperimentData)
  : option string :=
  let csvFile : ofstream := "" in
  let csvFile := csvFile << header << endl in
  csvFile ← for_range 0 5 (write_throughput_row expData) csvFile;
  csvFile ← for_range 0 5 (write_flow_time_row expData) csvFile;
  Some csvFile.

(** ** Vocabulary of the report *)

(** The samples of a sequence that the report shows. *)
Definition shown (values : list double) : list double :=
  take (Z.to_nat (Z.min 3 (int_of_size_t (Z.of_nat (length values))))) values.

Fixpoint concat_strings (l : list string) : string :=
  match l with
  | [] => ""
  | s :: rest => s ++ concat_strings rest
  end.

(** The columns of one stream slot: every shown sample followed by a
    comma, then mean, standard deviation and unit, separated by commas. *)
Definition slot_columns (values : list double) (mean stddev : double)
    (unit : string) : string :=
  concat_strings (map (fun v => Fmt.fmt_double v ++ ",") (shown values))
  ++ Fmt.fmt_double mean ++ "," ++ Fmt.fmt_double stddev ++ "," ++ unit.

Definition throughput_columns (d : ExperimentData) : string :=
  slot_columns (throughputs d) (meanThroughput d) (stddevThroughput d) "Mbps".

Definition flow_time_columns (d : ExperimentData) : string :=
  slot_columns (flowTimes d) (meanFlowTime d) (stddevFlowTime d) "sec".

(** The four shapes of a row, without its line feed; [n] is the number of
    the experiment, from 1. *)
Definition throughput_row_single (n : Z) (first : ExperimentData) : string :=
  "th_" ++ Fmt.fmt_int n ++ "," ++ throughput_columns first ++ ",".

Definition throughput_row_dual (n : Z) (first second : ExperimentData) : string :=
  "th_" ++ Fmt.fmt_int n ++ "," ++ throughput_columns first ++ ","
  ++ throughput_columns second.

Definition flow_time_row_single (n : Z) (first : ExperimentData) : string :=
  "afct_" ++ Fmt.fmt_int n ++ "," ++ flow_time_columns first.

Definition flow_time_row_dual (n : Z) (first second : ExperimentData) : string :=
  "afct_" ++ Fmt.fmt_int n ++ "," ++ flow_time_columns first ++ ","
  ++ flow_time_columns second.

Definition newline : ascii := ascii_of_nat 10.

Definition newline_free (s : string) : Prop :=
  Forall (fun c => c <> newline) (list_ascii_of_string s).

(** The text of a file made of the given lines, each ended by a line
    feed. *)
Definition unlines (rows : list string) : string :=
  concat_strings (map (fun row => row ++ endl) rows).

(** The store of the end-to-end example: experiment 1 holds three samples
    of 80 Mb/s, reduced. *)
Definition store_80 : list ExperimentData :=
  <[0%nat := mkExperimentData [of_Z 80; of_Z 80; of_Z 80] [of_Z 1; of_Z 1; of_Z 1]
               (of_Z 80) zero (of_Z 1) zero]> main_experimentData.

Local Close Scope string_scope.

(** ** Further vocabulary: numbers *)

(** A double whose sign bit is clear, or a NaN. *)
Definition nonneg_or_nan (x : double) : bool :=
  match x with
  | S754_nan => true
  | S754_zero s | S754_infinity s | S754_finite s _ _ => negb s
  end.

(** A zero or a finite nonzero double: neither an infinity nor a NaN. *)
Definition is_finite (x : double) : bool :=
  match x with
  | S754_zero _ | S754_finite _ _ _ => true
  | S754_infinity _ | S754_nan => false
  end.

(** What a sum that met the sample [v] can be, when [v] is a NaN or an
    infinity: a NaN, or the infinity itself. *)
Definition absorbed_by (v x : double) : Prop :=
  match v with
  | S754_nan => x = S754_nan
  | S754_infinity s => x = S754_nan \/ x = S754_infinity s
  | _ => False
  end.

(** ** Further vocabulary: classification *)

(** The bucket of a flow, as a function of the flow alone: none below the
    byte threshold; else the first window that holds the first
    transmission names the experiment; an experiment with one sender has
    slot 0 only, an experiment with two senders has the slot whose left
    leaf sent the flow. *)
Definition classify (dumbbells : list PointToPointDumbbellHelper)
    (expTimings : list (double * double)) (tuple : FiveTuple) (st : FlowStats)
  : option nat :=
  if 1000000 <? rxBytes st then
    found ← list_find (fun w => in_window (timeFirstTxPacket st) w = true) expTimings;
    let expIdx := fst found in
    setup ← main_experiments !! expIdx;
    if twoSenders setup then
      d ← dumbbells !! dumbbellIdx setup;
      a ← GetLeftIpv4Address d 0;
      if Ipv4Address_eqb (sourceAddress tuple) a then Some (bucket expIdx 0)
      else
        b ← GetLeftIpv4Address d 1;
        if Ipv4Address_eqb (sourceAddress tuple) b then Some (bucket expIdx 1)
        else None
    else Some (bucket expIdx 0)
  else None.

(** The flows of the table that belong to bucket [k], in the order of the
    table. *)
Definition flows_of_bucket (classifier : FlowId -> FiveTuple)
    (dumbbells : list PointToPointDumbbellHelper)
    (expTimings : list (double * double)) (k : nat)
    (stats : list (FlowId * FlowStats)) : list FlowStats :=
  snd <$> filter (fun it => classify dumbbells expTimings (classifier (fst it)) (snd it)
                            = Some k) stats.

(** A bucket after the samples of the flows [fs] were appended to it, in
    their order. *)
Definition add_flows (fs : list FlowStats) (d : ExperimentData) : ExperimentData :=
  mkExperimentData (throughputs d ++ map throughput_of fs)
                   (flowTimes d ++ map completion_time_of fs)
                   (meanThroughput d) (stddevThroughput d)
                   (meanFlowTime d) (stddevFlowTime d).

(** Every window ends no later than [e] or starts no earlier than [s]:
    the schedule leaves [[e, s)] free. *)
Definition outside_gap (e s : double) (expTimings : list (double * double)) : bool :=
  forallb (fun w => negb (e <? snd w)%D || negb (fst w <? s)%D) expTimings.

(** ** Further vocabulary: the report *)

Section ReportVocabulary.

Local Open Scope string_scope.

(** The eleven lines of the report, from the eight buckets it reads. *)
Definition report_rows (b0 b2 b3 b4 b6 b7 b8 b9 : ExperimentData) : list string :=
  [ header;
    throughput_row_single 1 b0;
    throughput_row_dual 2 b2 b3;
    throughput_row_single 3 b4;
    throughput_row_dual 4 b6 b7;
    throughput_row_dual 5 b8 b9;
    flow_time_row_single 1 b0;
    flow_time_row_dual 2 b2 b3;
    flow_time_row_single 3 b4;
    flow_time_row_dual 4 b6 b7;
    flow_time_row_dual 5 b8 b9 ].


(** The characters of a written number. *)
Definition numeric_char (c : ascii) : bool :=
  existsb (Ascii.eqb c) (list_ascii_of_string "0123456789.e+-infa").

Definition numeric (s : string) : Prop :=
  Forall (fun c => numeric_char c = true) (list_ascii_of_string s).

Fixpoint count_char (c : ascii) (s : string) : nat :=
  match s with
  | EmptyString => 0
  | String c' rest => (if Ascii.eqb c c' then 1 else 0) + count_char c rest
  end.

Definition commas (s : string) : nat := count_char ","%char s.

End ReportVocabulary.

(** ** [SetupExperiment] and [main] *)

(** A leaf of a dumbbell: [dumbbell.GetLeft(i)] or [dumbbell.GetRight(i)]. *)
Inductive Node : Type :=
| LeftLeaf (i : nat)
| RightLeaf (i : nat).

(** What is installed: a packet sink, which listens on any address of its
    node, or a bulk sender with its [MaxBytes], which sends to the address
    of the leaf [remote]. *)
Inductive AppKind : Type :=
| PacketSink
| BulkSend (remote : Node) (MaxBytes : Z).

(** One [Install] with its [Start] and [Stop] (in seconds); [app_dumbbell]
    is the index in [dumbbells] of the dumbbell the call was given. *)
Record Application : Type := mkApplication {
  app_kind : AppKind;
  app_dumbbell : nat;
  app_node : Node;
  app_port : Z;
  app_start : double;
  app_stop : double
}.

(** [for (int run = 0; run < 3; run++)]: the three runs of the sender on
    the left leaf [leaf], which sends to the right leaf [leaf]. *)
Definition install_runs (dumbbell : nat) (port maxBytes : Z) (startTime : double)
    (leaf : nat) (apps : list Application) : list Application :=
  foldl (fun (apps : list Application) (run : Z) =>
           let runStart := (startTime + of_Z (run * 10))%D in
           let runEnd := (runStart + of_Z 10)%D in
           apps ++ [mkApplication (BulkSend (RightLeaf leaf) maxBytes) dumbbell
                      (LeftLeaf leaf) port runStart runEnd])
        apps (seqZ 0 (3 - 0)).

(** The applications that one call installs, after those in [apps]. *)
Definition SetupExperiment (dumbbell : nat) (port maxBytes : Z)
    (startTime endTime : double) (twoSenders : bool)
    (apps : list Application) : list Application :=
  let apps :=
    apps ++ [mkApplication PacketSink dumbbell (RightLeaf 0) port startTime endTime] in
  let apps :=
    if twoSenders
    then apps ++ [mkApplication PacketSink dumbbell (RightLeaf 1) port
                    startTime endTime]
    else apps in
  let apps := install_runs dumbbell port maxBytes startTime 0 apps in
  if twoSenders
  then install_runs dumbbell port maxBytes startTime 1 apps
  else apps.

Definition maxBytes : Z := 50 * 1024 * 1024.

(** The five calls of [main], on the windows [expTimings[0]] to
    [expTimings[4]]. *)
Definition main_applications : option (list Application) :=
  w0 ← main_expTimings !! 0%nat;
  w1 ← main_expTimings !! 1%nat;
  w2 ← main_expTimings !! 2%nat;
  w3 ← main_expTimings !! 3%nat;
  w4 ← main_expTimings !! 4%nat;
  let apps := [] in
  let apps := SetupExperiment 0 9001 maxBytes (fst w0) (snd w0) false apps in
  let apps := SetupExperiment 0 9001 maxBytes (fst w1) (snd w1) true apps in
  let apps := SetupExperiment 1 9002 maxBytes (fst w2) (snd w2) false apps in
  let apps := SetupExperiment 1 9002 maxBytes (fst w3) (snd w3) true apps in
  let apps := SetupExperiment 2 9003 maxBytes (fst w4) (snd w4) true apps in
  Some apps.

(** What [main] leaves behind once the simulation has produced the flow
    table [stats] with its [classifier], on the dumbbells [dumbbells]: the
    file it wrote, the line it printed and its exit status. *)
Record Outcome : Type := mkOutcome {
  file_name : string;
  file_content : string;
  printed : string;
  exit_status : Z
}.

Definition main (stats : list (FlowId * FlowStats))
    (classifier : FlowId -> FiveTuple)
    (dumbbells : list PointToPointDumbbellHelper) : option Outcome :=
  let experimentData := main_experimentData in
  experimentData ←
    ProcessFlowMonitorResults stats classifier dumbbells main_expTimings
      experimentData;
  content ← WriteResultsCsv "tcp_srjamana.csv" experimentData;
  Some (mkOutcome "tcp_srjamana.csv" content
          (String.append "Simulation completed. Results written to tcp_Sharan.csv"
             endl)
          0).

(** Whether the sender run [a] lies in the window of experiment [expIdx]
    and is one that the classification expects there: it starts in the
    window, stops by its end, runs on the dumbbell of the experiment, on
    left leaf 0 or, with two senders, left leaf 1. *)
Definition run_fits (expIdx : nat) (a : Application) : bool :=
  match main_expTimings !! expIdx, main_experiments !! expIdx, app_node a with
  | Some w, Some setup, LeftLeaf leaf =>
      in_window (app_start a) w && leb (app_stop a) (snd w)
      && (app_dumbbell a =? dumbbellIdx setup)%nat
      && ((leaf =? 0)%nat || (twoSenders setup && (leaf =? 1)%nat))
  | _, _, _ => false
  end.

Definition is_sender (a : Application) : bool :=
  match app_kind a with
  | BulkSend _ _ => true
  | PacketSink => false
  end.

(** Whether [sub] occurs in [s]. *)
Fixpoint occurs (sub s : string) : bool :=
  String.prefix sub s
  || match s with
     | EmptyString => false
     | String _ rest => occurs sub rest
     end.
(** ** Statistics: proofs *)

Lemma for_each_sum_from (f : double -> double) (values : list double) (acc : double) :
  for_each values (fun s v => s + f v)%D acc
  = StatsSpec.sum_from acc (map f values).
Proof.
  revert acc. induction values as [|v rest IH]; intros acc; simpl; [reflexivity|].
  apply IH.
Qed.

Lemma for_each_sum (values : list double) (acc : double) :
  for_each values (fun s v => s + v)%D acc = StatsSpec.sum_from acc values.
Proof.
  rewrite <- (map_id values) at 2.
  apply (for_each_sum_from (fun v => v)).
Qed.

(** C2. [CalculateStats] returns the mean [sum(values)/len(values)] and the
    population standard deviation
    [sqrt(sum((v - mean)^2 for v in values)/len(values))] (denominator N);
    on the empty sequence it returns (0, 0), and neither component is a NaN. *)
Theorem CalculateStats_spec :
  (forall values : list double,
      CalculateStats values
      = match values with
        | [] => (zero, zero)
        | _ :: _ =>
            let n := of_Z (Z.of_nat (length values)) in
            let mean := (StatsSpec.sum values / n)%D in
            (mean,
             sqrt (StatsSpec.sum (map (fun v => pow_2 (v - mean)%D) values) / n)%D)
        end)
  /\ (forall values : list double, CalculateStats values = StatsSpec.stats values)
  /\ CalculateStats [] = (zero, zero)
  /\ is_nan (fst (CalculateStats [])) = false
  /\ is_nan (snd (CalculateStats [])) = false.
Proof.
  assert (Hall : forall values : list double,
            CalculateStats values = StatsSpec.stats values).
  { intros [|v rest]; [reflexivity|].
    unfold CalculateStats.
    rewrite bool_decide_eq_false_2 by discriminate.
    rewrite for_each_sum.
    rewrite (for_each_sum_from (fun v => pow_2 (v - _)%D)).
    reflexivity. }
  split; [|split; [exact Hall|repeat split]].
  intros values. rewrite Hall. destruct values; reflexivity.
Qed.

(** The values of the statistics on the sequences [5], [1;2;3] and three
    times [80]. *)
Example CalculateStats_single :
  CalculateStats [of_Z 5] = (of_Z 5, zero).
Proof. vm_compute. reflexivity. Qed.

Example CalculateStats_123 :
  CalculateStats [of_Z 1; of_Z 2; of_Z 3]
  = (of_Z 2, sqrt (of_Z 2 / of_Z 3)%D).
Proof. vm_compute. reflexivity. Qed.

Example CalculateStats_80 :
  CalculateStats [of_Z 80; of_Z 80; of_Z 80] = (of_Z 80, zero).
Proof. vm_compute. reflexivity. Qed.


(** ** Order on doubles *)

Lemma SFle_lt_trans (a t b : double) :
  SFleb a t = true -> SFltb t b = true -> SFltb a b = true.
Proof.
  unfold SFleb, SFltb.
  destruct a as [sa|sa| |sa ma ea], t as [st|st| |st mt et], b as [sb|sb| |sb mb eb];
    simpl; try discriminate; try reflexivity;
    repeat match goal with s : bool |- _ => destruct s end;
    simpl; try discriminate; try reflexivity.
  all: rewrite ?Pos.compare_cont_spec; simpl.
  all: destruct (Z.compare_spec ea et), (Z.compare_spec et eb), (Z.compare_spec ea eb);
    try discriminate; try reflexivity; try lia.
  all: subst.
  all: destruct (Pos.compare_spec ma mt), (Pos.compare_spec mt mb), (Pos.compare_spec ma mb);
    simpl; try discriminate; try reflexivity; try lia.
Qed.

(** Two windows, the second starting no earlier than the first ends, share
    no instant. *)
Lemma in_window_apart (t : double) (w1 w2 : double * double) :
  ltb (fst w2) (snd w1) = false ->
  in_window t w1 = true -> in_window t w2 = false.
Proof.
  unfold in_window, geb, ltb, leb. intros Hord H1.
  apply andb_true_iff in H1 as [_ Hlt].
  destruct (SFleb (fst w2) t) eqn:Hle; [|reflexivity].
  rewrite (SFle_lt_trans _ _ _ Hle Hlt) in Hord. discriminate.
Qed.

Lemma in_window_apart' (t : double) (w1 w2 : double * double) :
  ltb (fst w2) (snd w1) = false ->
  in_window t w2 = true -> in_window t w1 = false.
Proof.
  intros Hord H2. destruct (in_window t w1) eqn:H1; [|reflexivity].
  rewrite (in_window_apart t w1 w2 Hord H1) in H2. discriminate.
Qed.

Example main_expTimings_value :
  main_expTimings
  = [ (of_Z 1, of_Z 31); (of_Z 32, of_Z 62); (of_Z 63, of_Z 93);
      (of_Z 94, of_Z 124); (of_Z 125, of_Z 155) ].
Proof. vm_compute. reflexivity. Qed.

Lemma separated_lookup (expTimings : list (double * double)) (i j : nat)
    (wi wj : double * double) :
  separated expTimings = true -> (i < j)%nat ->
  expTimings !! i = Some wi -> expTimings !! j = Some wj ->
  ltb (fst wj) (snd wi) = false.
Proof.
  revert i j. induction expTimings as [|w rest IH]; intros i j Hsep Hij Hi Hj.
  - discriminate.
  - simpl in Hsep. apply andb_true_iff in Hsep as [Hhead Htail].
    destruct j as [|j]; [lia|]. simpl in Hj.
    destruct i as [|i]; simpl in Hi.
    + injection Hi as <-.
      rewrite forallb_forall in Hhead.
      apply negb_true_iff. apply Hhead.
      apply list_elem_of_In. eapply list_elem_of_lookup_2. exact Hj.
    + apply (IH i j Htail); [lia|assumption..].
Qed.

(** Separated windows share no instant. *)
Lemma separated_disjoint (expTimings : list (double * double)) :
  separated expTimings = true -> windows_disjoint expTimings.
Proof.
  intros Hsep i j wi wj t Hij Hi Hj Hin.
  destruct (decide (i < j)%nat) as [Hlt|Hge].
  - apply (in_window_apart t wi wj); [|exact Hin].
    exact (separated_lookup expTimings i j wi wj Hsep Hlt Hi Hj).
  - apply (in_window_apart' t wj wi); [|exact Hin].
    apply (separated_lookup expTimings j i wj wi Hsep); [lia|assumption..].
Qed.

Lemma main_expTimings_separated : separated main_expTimings = true.
Proof. vm_compute. reflexivity. Qed.

Lemma main_windows_disjoint : windows_disjoint main_expTimings.
Proof. apply separated_disjoint. exact main_expTimings_separated. Qed.

Lemma schedule_chained (offset : double) :
  chained offset (schedule_loop 5 offset []).
Proof. simpl. repeat split. Qed.

(** ** The store under [push_back] *)

Lemma push_samples_alter (k : nat) (t f : double) (expData : list ExperimentData) :
  (k < length expData)%nat ->
  push_samples k t f expData = Some (alter (add_sample t f) k expData).
Proof.
  intros Hk. destruct (lookup_lt_is_Some_2 _ _ Hk) as [d Hd].
  unfold push_samples, push_throughput, push_flowTime.
  rewrite Hd. simpl.
  rewrite list_lookup_insert_eq by exact Hk. simpl.
  rewrite list_insert_insert_eq. f_equal.
  apply list_eq. intros j. destruct (decide (k = j)) as [<-|Hne].
  - rewrite list_lookup_insert_eq by exact Hk.
    rewrite list_lookup_alter_eq, Hd. reflexivity.
  - rewrite list_lookup_insert_ne by exact Hne.
    rewrite list_lookup_alter_ne by exact Hne. reflexivity.
Qed.

Lemma push_samples_Some (k : nat) (t f : double) (expData r : list ExperimentData) :
  push_samples k t f expData = Some r ->
  (k < length expData)%nat /\ r = alter (add_sample t f) k expData.
Proof.
  intros H. destruct (decide (k < length expData)%nat) as [Hk|Hk].
  - rewrite push_samples_alter in H by exact Hk. split; congruence.
  - unfold push_samples, push_throughput in H.
    rewrite (lookup_ge_None_2 expData k) in H by lia. discriminate.
Qed.

Lemma balanced_add_sample (t f : double) (d : ExperimentData) :
  balanced d -> balanced (add_sample t f d).
Proof.
  unfold balanced, add_sample. simpl. rewrite !length_app. simpl. lia.
Qed.

Lemma Forall_balanced_alter (t f : double) (k : nat) (expData : list ExperimentData) :
  Forall balanced expData -> Forall balanced (alter (add_sample t f) k expData).
Proof.
  rewrite !Forall_lookup. intros H j d Hj.
  destruct (decide (k = j)) as [<-|Hne].
  - rewrite list_lookup_alter_eq in Hj.
    destruct (expData !! k) as [d0|] eqn:Hd; simplify_eq/=.
    apply balanced_add_sample. eapply H; eauto.
  - rewrite list_lookup_alter_ne in Hj by exact Hne. eapply H; eauto.
Qed.

(** ** The branches of one window *)

Lemma Ipv4Address_eqb_eq (a b : Ipv4Address) :
  Ipv4Address_eqb a b = true <-> a = b.
Proof.
  unfold Ipv4Address_eqb. rewrite Z.eqb_eq.
  destruct a, b; simpl; split; congruence.
Qed.

Lemma source_is_left_Some (dumbbells : list PointToPointDumbbellHelper)
    (n i : nat) (tuple : FiveTuple) (d : PointToPointDumbbellHelper) (a : Ipv4Address) :
  dumbbells !! n = Some d -> GetLeftIpv4Address d i = Some a ->
  source_is_left dumbbells n i tuple = Some (Ipv4Address_eqb (sourceAddress tuple) a).
Proof. intros Hd Ha. unfold source_is_left. rewrite Hd. simpl. rewrite Ha. reflexivity. Qed.

Lemma source_is_left_total (dumbbells : list PointToPointDumbbellHelper)
    (n i : nat) (tuple : FiveTuple) :
  topology_ok dumbbells -> (n <= 2)%nat -> (i <= 1)%nat ->
  is_Some (source_is_left dumbbells n i tuple).
Proof.
  intros [Hlen Hleaves] Hn Hi.
  destruct (lookup_lt_is_Some_2 dumbbells n) as [d Hd]; [lia|].
  assert (Hd2 : (2 <= length (leftLeafAddresses d))%nat).
  { rewrite Forall_lookup in Hleaves. exact (Hleaves n d Hd). }
  destruct (lookup_lt_is_Some_2 (leftLeafAddresses d) i) as [a Ha]; [lia|].
  rewrite (source_is_left_Some dumbbells n i tuple d a Hd Ha). eauto.
Qed.

(** Whatever the branch, a window appends to one of its two buckets or to
    none. *)
Lemma attribute_cases (dumbbells : list PointToPointDumbbellHelper) (expIdx : nat)
    (tuple : FiveTuple) (t f : double) (expData r : list ExperimentData) :
  attribute dumbbells expIdx tuple t f expData = Some r ->
  r = expData
  \/ exists slot : nat, (slot <= 1)%nat /\ (expIdx <= 4)%nat
       /\ push_samples (bucket expIdx slot) t f expData = Some r.
Proof.
  unfold attribute, bucket. intros H.
  do 5 (destruct expIdx as [|expIdx]; [
    simpl in H;
    repeat match type of H with
      | context [source_is_left ?a ?b ?c ?d] =>
          destruct (source_is_left a b c d) as [[|]|]; simpl in H
      end;
    first [ discriminate H
          | left; congruence
          | right; exists 0%nat; rewrite Nat.add_0_r; repeat split; [lia|lia|exact H]
          | right; exists 1%nat; repeat split; [lia|lia|exact H] ] |]).
  simpl in H. left. congruence.
Qed.

Lemma attribute_total (dumbbells : list PointToPointDumbbellHelper) (expIdx : nat)
    (tuple : FiveTuple) (t f : double) (expData : list ExperimentData) :
  topology_ok dumbbells -> (10 <= length expData)%nat ->
  is_Some (attribute dumbbells expIdx tuple t f expData).
Proof.
  intros Htop Hlen. unfold attribute.
  pose proof (fun n i Hn Hi => source_is_left_total dumbbells n i tuple Htop Hn Hi) as Hs.
  do 5 (destruct expIdx as [|expIdx]; [
    simpl;
    repeat match goal with
      | |- context [source_is_left _ ?n ?i _] =>
          let b := fresh "b" in
          let Hb := fresh "Hb" in
          destruct (Hs n i ltac:(lia) ltac:(lia)) as [b Hb]; rewrite Hb; simpl;
          destruct b; simpl
      end;
    first [ rewrite push_samples_alter by (simpl; lia); eauto | eauto ] |]).
  simpl. eauto.
Qed.

(** ** The search for the window *)

(** The loop ends without a match, or runs the branches of the first
    window that holds [startTime] and stops there. *)
Lemma window_loop_cases (dumbbells : list PointToPointDumbbellHelper)
    (rest : list (double * double)) (tuple : FiveTuple)
    (t f startTime : double) (expData : list ExperimentData) (n : nat) :
  (Forall (fun w => in_window startTime w = false) rest
   /\ window_loop dumbbells n rest tuple t f startTime expData = Some expData)
  \/ exists (pre : list (double * double)) (w : double * double)
            (post : list (double * double)),
       rest = pre ++ w :: post
       /\ Forall (fun w' => in_window startTime w' = false) pre
       /\ in_window startTime w = true
       /\ window_loop dumbbells n rest tuple t f startTime expData
          = attribute dumbbells (n + length pre) tuple t f expData.
Proof.
  revert n. induction rest as [|w rest IH]; intros n.
  - left. split; [constructor|reflexivity].
  - simpl. destruct (in_window startTime w) eqn:Hw; unfold in_window in Hw; rewrite Hw.
    + right. exists [], w, rest. simpl. rewrite Nat.add_0_r.
      repeat split; [constructor|exact Hw].
    + destruct (IH (S n)) as [[Hall Hr]|(pre & w' & post & -> & Hpre & Hw' & Hr)].
      * left. split; [constructor; assumption|exact Hr].
      * right. exists (w :: pre), w', post. simpl.
        replace (n + S (length pre))%nat with (S n + length pre)%nat by lia.
        repeat split; [constructor; assumption|exact Hw'|exact Hr].
Qed.

Lemma first_window_split (pre : list (double * double)) (w : double * double)
    (post : list (double * double)) (startTime : double) :
  Forall (fun w' => in_window startTime w' = false) pre ->
  in_window startTime w = true ->
  first_window (pre ++ w :: post) startTime (length pre).
Proof.
  intros Hpre Hw. split.
  - exists w. split; [|exact Hw]. apply list_lookup_middle. reflexivity.
  - intros j w' Hj Hl. rewrite lookup_app_l in Hl by exact Hj.
    rewrite Forall_lookup in Hpre. exact (Hpre j w' Hl).
Qed.

Lemma first_window_unique (expTimings : list (double * double)) (t : double)
    (i j : nat) :
  first_window expTimings t i -> first_window expTimings t j -> i = j.
Proof.
  intros [(wi & Hi & Hwi) Hbi] [(wj & Hj & Hwj) Hbj].
  destruct (Nat.lt_trichotomy i j) as [Hlt|[Heq|Hgt]]; [|exact Heq|].
  - rewrite (Hbj i wi Hlt Hi) in Hwi. discriminate.
  - rewrite (Hbi j wj Hgt Hj) in Hwj. discriminate.
Qed.

(** In a schedule of disjoint windows, the window that holds an instant is
    the first that does. *)
Lemma disjoint_first_window (expTimings : list (double * double)) (t : double)
    (expIdx : nat) (w : double * double) :
  windows_disjoint expTimings ->
  expTimings !! expIdx = Some w -> in_window t w = true ->
  first_window expTimings t expIdx.
Proof.
  intros Hdis Hl Hw. split; [eauto|].
  intros j wj Hj Hlj. apply (Hdis expIdx j w wj t); [lia|assumption..].
Qed.

Lemma process_flow_below (dumbbells : list PointToPointDumbbellHelper)
    (expTimings : list (double * double)) (tuple : FiveTuple) (st : FlowStats)
    (expData : list ExperimentData) :
  rxBytes st <= 1000000 ->
  process_flow dumbbells expTimings tuple st expData = Some expData.
Proof.
  intros H. unfold process_flow.
  destruct (1000000 <? rxBytes st) eqn:E; [apply Z.ltb_lt in E; lia|reflexivity].
Qed.

(** What one flow does to the store. *)
Lemma process_flow_cases (dumbbells : list PointToPointDumbbellHelper)
    (expTimings : list (double * double)) (tuple : FiveTuple) (st : FlowStats)
    (expData : list ExperimentData) :
  process_flow dumbbells expTimings tuple st expData = Some expData
  \/ (1000000 < rxBytes st
      /\ exists expIdx : nat,
           first_window expTimings (timeFirstTxPacket st) expIdx
           /\ process_flow dumbbells expTimings tuple st expData
              = attribute dumbbells expIdx tuple
                  (throughput_of st) (completion_time_of st) expData).
Proof.
  destruct (Z_le_gt_dec (rxBytes st) 1000000) as [Hle|Hgt].
  { left. apply process_flow_below. exact Hle. }
  unfold process_flow.
  replace (1000000 <? rxBytes st) with true by (symmetry; apply Z.ltb_lt; lia).
  fold (throughput_of st) (completion_time_of st).
  destruct (window_loop_cases dumbbells expTimings tuple (throughput_of st)
              (completion_time_of st) (timeFirstTxPacket st) expData 0)
    as [[_ Hr]|(pre & w & post & -> & Hpre & Hw & Hr)].
  - left. exact Hr.
  - right. split; [lia|]. exists (length pre). split.
    + apply first_window_split; assumption.
    + exact Hr.
Qed.

Lemma process_flow_at (dumbbells : list PointToPointDumbbellHelper)
    (expTimings : list (double * double)) (tuple : FiveTuple) (st : FlowStats)
    (expData : list ExperimentData) (expIdx : nat) :
  1000000 < rxBytes st ->
  first_window expTimings (timeFirstTxPacket st) expIdx ->
  process_flow dumbbells expTimings tuple st expData
  = attribute dumbbells expIdx tuple (throughput_of st) (completion_time_of st) expData.
Proof.
  intros Hrx Hfirst. unfold process_flow.
  replace (1000000 <? rxBytes st) with true by (symmetry; apply Z.ltb_lt; lia).
  fold (throughput_of st) (completion_time_of st).
  destruct (window_loop_cases dumbbells expTimings tuple (throughput_of st)
              (completion_time_of st) (timeFirstTxPacket st) expData 0)
    as [[Hall _]|(pre & w & post & -> & Hpre & Hw & Hr)].
  - destruct Hfirst as [(w & Hl & Hw) _].
    rewrite Forall_lookup in Hall. rewrite (Hall _ _ Hl) in Hw. discriminate.
  - pose proof (first_window_split pre w post _ Hpre Hw) as Hf.
    rewrite (first_window_unique _ _ _ _ Hfirst Hf). exact Hr.
Qed.

(** ** One flow, many flows *)

(** One flow leaves the store as it is or appends its samples to one
    bucket of the first window that holds its first transmission. *)
Lemma process_flow_effect (dumbbells : list PointToPointDumbbellHelper)
    (expTimings : list (double * double)) (tuple : FiveTuple) (st : FlowStats)
    (expData expData' : list ExperimentData) :
  process_flow dumbbells expTimings tuple st expData = Some expData' ->
  expData' = expData
  \/ exists expIdx slot : nat,
       1000000 < rxBytes st
       /\ first_window expTimings (timeFirstTxPacket st) expIdx
       /\ (expIdx <= 4)%nat /\ (slot <= 1)%nat
       /\ (bucket expIdx slot < length expData)%nat
       /\ expData' = alter (record_sample st) (bucket expIdx slot) expData.
Proof.
  intros H.
  destruct (process_flow_cases dumbbells expTimings tuple st expData)
    as [Hr|(Hrx & expIdx & Hfirst & Hr)].
  - left. congruence.
  - rewrite Hr in H. apply attribute_cases in H as [->|(slot & Hslot & Hidx & Hp)].
    + left. reflexivity.
    + right. exists expIdx, slot. apply push_samples_Some in Hp as [Hk ->].
      repeat split; try assumption; apply Hfirst.
Qed.

Lemma process_flow_total (dumbbells : list PointToPointDumbbellHelper)
    (expTimings : list (double * double)) (tuple : FiveTuple) (st : FlowStats)
    (expData : list ExperimentData) :
  topology_ok dumbbells -> (10 <= length expData)%nat ->
  is_Some (process_flow dumbbells expTimings tuple st expData).
Proof.
  intros Htop Hlen.
  destruct (process_flow_cases dumbbells expTimings tuple st expData)
    as [Hr|(_ & expIdx & _ & Hr)]; rewrite Hr; [eauto|].
  apply attribute_total; assumption.
Qed.

Lemma process_flow_length (dumbbells : list PointToPointDumbbellHelper)
    (expTimings : list (double * double)) (tuple : FiveTuple) (st : FlowStats)
    (expData expData' : list ExperimentData) :
  process_flow dumbbells expTimings tuple st expData = Some expData' ->
  length expData' = length expData.
Proof.
  intros H. apply process_flow_effect in H as [->|(i & s & _ & _ & _ & _ & _ & ->)];
    [reflexivity|apply length_alter].
Qed.

Lemma process_flow_balanced (dumbbells : list PointToPointDumbbellHelper)
    (expTimings : list (double * double)) (tuple : FiveTuple) (st : FlowStats)
    (expData expData' : list ExperimentData) :
  process_flow dumbbells expTimings tuple st expData = Some expData' ->
  Forall balanced expData -> Forall balanced expData'.
Proof.
  intros H Hb. apply process_flow_effect in H as [->|(i & s & _ & _ & _ & _ & _ & ->)];
    [exact Hb|apply Forall_balanced_alter; exact Hb].
Qed.

Lemma flow_loop_balanced (classifier : FlowId -> FiveTuple)
    (dumbbells : list PointToPointDumbbellHelper)
    (expTimings : list (double * double)) (stats : list (FlowId * FlowStats))
    (expData expData' : list ExperimentData) :
  flow_loop classifier dumbbells expTimings stats expData = Some expData' ->
  Forall balanced expData -> Forall balanced expData'.
Proof.
  revert expData. induction stats as [|it stats IH]; intros expData H Hb; simpl in H.
  - congruence.
  - destruct (process_flow dumbbells expTimings (classifier it.1) it.2 expData)
      as [mid|] eqn:Hmid; simpl in H; [|discriminate].
    apply (IH mid H). eapply process_flow_balanced; eauto.
Qed.

Lemma flow_loop_total (classifier : FlowId -> FiveTuple)
    (dumbbells : list PointToPointDumbbellHelper)
    (expTimings : list (double * double)) (stats : list (FlowId * FlowStats))
    (expData : list ExperimentData) :
  topology_ok dumbbells -> (10 <= length expData)%nat ->
  exists expData' : list ExperimentData,
    flow_loop classifier dumbbells expTimings stats expData = Some expData'
    /\ length expData' = length expData.
Proof.
  intros Htop. revert expData.
  induction stats as [|it stats IH]; intros expData Hlen; simpl.
  - eauto.
  - destruct (process_flow_total dumbbells expTimings (classifier it.1) it.2
                expData Htop Hlen) as [mid Hmid].
    rewrite Hmid. simpl.
    pose proof (process_flow_length _ _ _ _ _ _ Hmid) as Hl.
    destruct (IH mid) as (r & Hr & Hlr); [lia|].
    exists r. split; [exact Hr|lia].
Qed.

Lemma balanced_reduce (d : ExperimentData) : balanced d -> balanced (reduce d).
Proof.
  unfold balanced, reduce.
  destruct (CalculateStats (throughputs d)), (CalculateStats (flowTimes d)).
  simpl. trivial.
Qed.

(** ** Classification of one flow *)

Lemma sample_topology_ok : topology_ok Sample.dumbbells.
Proof. split; [simpl; lia|]. repeat constructor. Qed.

(** C3. A flow record with [rxBytes <= 1000000] is appended to no bucket,
    whatever its timestamps and its sender address: the store is left as
    it was. *)
Theorem small_flow_discarded (dumbbells : list PointToPointDumbbellHelper)
    (expTimings : list (double * double)) (tuple : FiveTuple) (st : FlowStats)
    (expData : list ExperimentData) :
  rxBytes st <= 1000000 ->
  process_flow dumbbells expTimings tuple st expData = Some expData.
Proof. apply process_flow_below. Qed.

Lemma small_flow_discarded_witness :
  process_flow Sample.dumbbells main_expTimings
    (Sample.tuple_from (Sample.addr 10 1 1 1)) (Sample.flow 900000 12)
    main_experimentData
  = Some main_experimentData.
Proof. apply small_flow_discarded. simpl. lia. Defined.

(** The threshold is strict: 1,000,000 bytes are dropped, one byte more is
    kept. *)
Example threshold_is_strict :
  process_flow Sample.dumbbells main_expTimings
    (Sample.tuple_from (Sample.addr 10 1 1 1)) (Sample.flow 1000000 12)
    main_experimentData
  = Some main_experimentData
  /\ process_flow Sample.dumbbells main_expTimings
       (Sample.tuple_from (Sample.addr 10 1 1 1)) (Sample.flow 1000001 12)
       main_experimentData
     <> Some main_experimentData.
Proof. split; [reflexivity|]. vm_compute. discriminate. Qed.

(** A flow whose first transmission lies in no window is dropped. *)
Lemma flow_outside_windows_discarded (dumbbells : list PointToPointDumbbellHelper)
    (expTimings : list (double * double)) (tuple : FiveTuple) (st : FlowStats)
    (expData : list ExperimentData) :
  Forall (fun w => in_window (timeFirstTxPacket st) w = false) expTimings ->
  process_flow dumbbells expTimings tuple st expData = Some expData.
Proof.
  intros Hout.
  destruct (process_flow_cases dumbbells expTimings tuple st expData)
    as [Hr|(_ & expIdx & [(w & Hl & Hw) _] & _)]; [exact Hr|].
  rewrite Forall_lookup in Hout. rewrite (Hout _ _ Hl) in Hw. discriminate.
Qed.

(** C4. A flow above the byte threshold whose first transmission lies in
    the window of an experiment with one sender goes to stream slot 0 of
    that experiment, whatever its sender address and whatever the
    topology. *)
Theorem single_sender_slot0 (dumbbells : list PointToPointDumbbellHelper)
    (expTimings : list (double * double)) (tuple : FiveTuple) (st : FlowStats)
    (expData : list ExperimentData) (expIdx : nat) (setup : ExperimentSetup)
    (w : double * double) :
  main_experiments !! expIdx = Some setup -> twoSenders setup = false ->
  1000000 < rxBytes st ->
  windows_disjoint expTimings ->
  expTimings !! expIdx = Some w -> in_window (timeFirstTxPacket st) w = true ->
  (bucket expIdx 0 < length expData)%nat ->
  process_flow dumbbells expTimings tuple st expData
  = Some (alter (record_sample st) (bucket expIdx 0) expData).
Proof.
  intros Hsetup Hone Hrx Hdis Hl Hw Hlen. unfold record_sample.
  rewrite (process_flow_at dumbbells expTimings tuple st expData expIdx Hrx
             (disjoint_first_window _ _ _ _ Hdis Hl Hw)).
  rewrite <- push_samples_alter by exact Hlen.
  unfold bucket in *.
  do 5 (destruct expIdx as [|expIdx]; [simplify_eq/=; try discriminate; reflexivity|]).
  simplify_eq/=.
Qed.

Lemma single_sender_slot0_witness :
  process_flow [] main_expTimings (Sample.tuple_from Sample.stranger)
    (Sample.flow 2000000 12) main_experimentData
  = Some (alter (record_sample (Sample.flow 2000000 12)) (bucket 0 0)
                main_experimentData).
Proof.
  apply (single_sender_slot0 [] main_expTimings _ _ _ 0%nat
           (mkSetup 0 false) (of_Z 1, of_Z 31)).
  - reflexivity.
  - reflexivity.
  - simpl. lia.
  - exact main_windows_disjoint.
  - vm_compute. reflexivity.
  - vm_compute. reflexivity.
  - vm_compute. lia.
Defined.

(** C5. A flow above the byte threshold whose first transmission lies in
    the window of an experiment with two senders goes to slot 0 when its
    sender address is the first expected sender, else to slot 1 when it is
    the second, else to no bucket. *)
Theorem two_sender_slots (dumbbells : list PointToPointDumbbellHelper)
    (expTimings : list (double * double)) (tuple : FiveTuple) (st : FlowStats)
    (expData : list ExperimentData) (expIdx : nat) (setup : ExperimentSetup)
    (w : double * double) (d : PointToPointDumbbellHelper) (A B : Ipv4Address) :
  main_experiments !! expIdx = Some setup -> twoSenders setup = true ->
  dumbbells !! dumbbellIdx setup = Some d ->
  GetLeftIpv4Address d 0 = Some A -> GetLeftIpv4Address d 1 = Some B ->
  1000000 < rxBytes st ->
  windows_disjoint expTimings ->
  expTimings !! expIdx = Some w -> in_window (timeFirstTxPacket st) w = true ->
  (bucket expIdx 1 < length expData)%nat ->
  (sourceAddress tuple = A ->
     process_flow dumbbells expTimings tuple st expData
     = Some (alter (record_sample st) (bucket expIdx 0) expData))
  /\ (sourceAddress tuple <> A -> sourceAddress tuple = B ->
     process_flow dumbbells expTimings tuple st expData
     = Some (alter (record_sample st) (bucket expIdx 1) expData))
  /\ (sourceAddress tuple <> A -> sourceAddress tuple <> B ->
     process_flow dumbbells expTimings tuple st expData = Some expData).
Proof.
  intros Hsetup Htwo Hd HA HB Hrx Hdis Hl Hw Hlen.
  set (sample := record_sample st).
  set (result := process_flow dumbbells expTimings tuple st expData).
  assert (Hres : result
    = if Ipv4Address_eqb (sourceAddress tuple) A
      then Some (alter sample (bucket expIdx 0) expData)
      else if Ipv4Address_eqb (sourceAddress tuple) B
           then Some (alter sample (bucket expIdx 1) expData)
           else Some expData).
  { subst result sample. unfold record_sample.
    rewrite (process_flow_at dumbbells expTimings tuple st expData expIdx Hrx
               (disjoint_first_window _ _ _ _ Hdis Hl Hw)).
    unfold bucket in *.
    rewrite <- !push_samples_alter by lia.
    do 5 (destruct expIdx as [|expIdx]; [
      first
        [ solve [simplify_eq/=]
        | simplify_eq/=; unfold attribute; simpl;
          rewrite (source_is_left_Some _ _ _ tuple _ _ Hd HA); simpl;
          destruct (Ipv4Address_eqb (sourceAddress tuple) A); [reflexivity|];
          rewrite (source_is_left_Some _ _ _ tuple _ _ Hd HB); simpl;
          destruct (Ipv4Address_eqb (sourceAddress tuple) B); reflexivity ] |]).
    simplify_eq/=. }
  rewrite Hres. repeat split.
  - intros HeA. apply Ipv4Address_eqb_eq in HeA. rewrite HeA. reflexivity.
  - intros HnA HeB.
    destruct (Ipv4Address_eqb (sourceAddress tuple) A) eqn:EA;
      [apply Ipv4Address_eqb_eq in EA; contradiction|].
    apply Ipv4Address_eqb_eq in HeB. rewrite HeB. reflexivity.
  - intros HnA HnB.
    destruct (Ipv4Address_eqb (sourceAddress tuple) A) eqn:EA;
      [apply Ipv4Address_eqb_eq in EA; contradiction|].
    destruct (Ipv4Address_eqb (sourceAddress tuple) B) eqn:EB;
      [apply Ipv4Address_eqb_eq in EB; contradiction|].
    reflexivity.
Qed.

Lemma two_sender_slots_witness :
  process_flow Sample.dumbbells main_expTimings
    (Sample.tuple_from (Sample.addr 10 1 1 1)) (Sample.flow 2000000 40)
    main_experimentData
  = Some (alter (record_sample (Sample.flow 2000000 40)) (bucket 1 0)
                main_experimentData)
  /\ process_flow Sample.dumbbells main_expTimings
       (Sample.tuple_from (Sample.addr 10 1 1 5)) (Sample.flow 2000000 40)
       main_experimentData
     = Some (alter (record_sample (Sample.flow 2000000 40)) (bucket 1 1)
                   main_experimentData)
  /\ process_flow Sample.dumbbells main_expTimings
       (Sample.tuple_from Sample.stranger) (Sample.flow 2000000 40)
       main_experimentData
     = Some main_experimentData.
Proof.
  pose proof (fun src =>
    two_sender_slots Sample.dumbbells main_expTimings
      (Sample.tuple_from src) (Sample.flow 2000000 40) main_experimentData 1%nat
      (mkSetup 0 true) (of_Z 32, of_Z 62)
      (mkDumbbell [Sample.addr 10 1 1 1; Sample.addr 10 1 1 5])
      (Sample.addr 10 1 1 1) (Sample.addr 10 1 1 5)
      eq_refl eq_refl eq_refl eq_refl eq_refl eq_refl
      main_windows_disjoint) as H.
  assert (Hl : main_expTimings !! 1%nat = Some (of_Z 32, of_Z 62))
    by (vm_compute; reflexivity).
  assert (Hw : in_window (timeFirstTxPacket (Sample.flow 2000000 40))
                 (of_Z 32, of_Z 62) = true) by (vm_compute; reflexivity).
  assert (Hlen : (bucket 1 1 < length main_experimentData)%nat)
    by (vm_compute; lia).
  split; [|split].
  - apply (H (Sample.addr 10 1 1 1) Hl Hw Hlen). reflexivity.
  - apply (H (Sample.addr 10 1 1 5) Hl Hw Hlen); [discriminate|reflexivity].
  - apply (H Sample.stranger Hl Hw Hlen); discriminate.
Defined.

(** C6. A flow record is appended to at most one bucket. The windows of
    the schedule follow [start[0] = offset], [end[i] = start[i] + 30],
    [start[i+1] = end[i] + 1]; those that [main] builds are separated, and
    separated windows share no instant. The search stops at the first
    window that holds the first transmission, and there the record goes
    to one of the two slots or to none: every other bucket is left as it
    was. *)
Theorem at_most_one_bucket (dumbbells : list PointToPointDumbbellHelper)
    (expTimings : list (double * double)) (tuple : FiveTuple) (st : FlowStats)
    (expData : list ExperimentData) :
  topology_ok dumbbells -> (10 <= length expData)%nat ->
  (forall offset : double, chained offset (schedule_loop 5 offset []))
  /\ (forall schedule : list (double * double),
        separated schedule = true -> windows_disjoint schedule)
  /\ separated main_expTimings = true
  /\ windows_disjoint main_expTimings
  /\ exists expData' : list ExperimentData,
       process_flow dumbbells expTimings tuple st expData = Some expData'
       /\ (expData' = expData
           \/ exists expIdx slot : nat,
                first_window expTimings (timeFirstTxPacket st) expIdx
                /\ (slot <= 1)%nat
                /\ expData' = alter (record_sample st) (bucket expIdx slot) expData
                /\ forall k : nat,
                     k <> bucket expIdx slot -> expData' !! k = expData !! k).
Proof.
  intros Htop Hlen.
  split; [exact schedule_chained|].
  split; [exact separated_disjoint|].
  split; [exact main_expTimings_separated|].
  split; [exact main_windows_disjoint|].
  destruct (process_flow_total dumbbells expTimings tuple st expData Htop Hlen)
    as [expData' H].
  exists expData'. split; [exact H|].
  apply process_flow_effect in H
    as [->|(expIdx & slot & _ & Hfirst & _ & Hslot & _ & ->)]; [left; reflexivity|].
  right. exists expIdx, slot. repeat split; try assumption; try apply Hfirst.
  intros k Hk. apply list_lookup_alter_ne. congruence.
Qed.

Lemma at_most_one_bucket_witness :
  (forall offset : double, chained offset (schedule_loop 5 offset []))
  /\ (forall schedule : list (double * double),
        separated schedule = true -> windows_disjoint schedule)
  /\ separated main_expTimings = true
  /\ windows_disjoint main_expTimings
  /\ exists expData' : list ExperimentData,
       process_flow Sample.dumbbells main_expTimings
         (Sample.tuple_from (Sample.addr 10 1 1 5)) (Sample.flow 2000000 40)
         main_experimentData = Some expData'
       /\ (expData' = main_experimentData
           \/ exists expIdx slot : nat,
                first_window main_expTimings
                  (timeFirstTxPacket (Sample.flow 2000000 40)) expIdx
                /\ (slot <= 1)%nat
                /\ expData' = alter (record_sample (Sample.flow 2000000 40))
                                (bucket expIdx slot) main_experimentData
                /\ forall k : nat,
                     k <> bucket expIdx slot ->
                     expData' !! k = main_experimentData !! k).
Proof.
  apply at_most_one_bucket.
  - exact sample_topology_ok.
  - vm_compute. lia.
Defined.

(** C7. When a flow record is appended to a bucket, the throughput sample
    is [(rxBytes * 8) / (lastRx - firstTx) / 1e6] and the completion-time
    sample is [lastTx - firstTx]; nothing else of the bucket changes. *)
Theorem samples_appended (dumbbells : list PointToPointDumbbellHelper)
    (expTimings : list (double * double)) (tuple : FiveTuple) (st : FlowStats)
    (expData expData' : list ExperimentData) (k : nat) :
  process_flow dumbbells expTimings tuple st expData = Some expData' ->
  expData' !! k <> expData !! k ->
  exists d : ExperimentData,
    expData !! k = Some d
    /\ expData' !! k
       = Some (mkExperimentData
                 (throughputs d
                  ++ [(of_Z (rxBytes st) * of_Z 8
                       / (timeLastRxPacket st - timeFirstTxPacket st)
                       / of_Z 1000000)%D])
                 (flowTimes d
                  ++ [(timeLastTxPacket st - timeFirstTxPacket st)%D])
                 (meanThroughput d) (stddevThroughput d)
                 (meanFlowTime d) (stddevFlowTime d)).
Proof.
  intros H Hk.
  apply process_flow_effect in H
    as [->|(expIdx & slot & _ & _ & _ & _ & Hlen & ->)]; [contradiction|].
  destruct (decide (bucket expIdx slot = k)) as [<-|Hne].
  - destruct (lookup_lt_is_Some_2 _ _ Hlen) as [d Hd].
    exists d. split; [exact Hd|].
    rewrite list_lookup_alter_eq, Hd. reflexivity.
  - rewrite list_lookup_alter_ne in Hk by exact Hne. contradiction.
Qed.

Lemma samples_appended_witness :
  exists d : ExperimentData,
    main_experimentData !! 0%nat = Some d
    /\ alter (record_sample (Sample.flow 10000000 1)) 0%nat main_experimentData
       !! 0%nat
       = Some (mkExperimentData
                 (throughputs d
                  ++ [(of_Z 10000000 * of_Z 8 / (of_Z 2 - of_Z 1)
                       / of_Z 1000000)%D])
                 (flowTimes d ++ [(of_Z 2 - of_Z 1)%D])
                 (meanThroughput d) (stddevThroughput d)
                 (meanFlowTime d) (stddevFlowTime d)).
Proof.
  apply (samples_appended Sample.dumbbells main_expTimings
           (Sample.tuple_from (Sample.addr 10 1 1 1)) (Sample.flow 10000000 1)
           main_experimentData).
  - vm_compute. reflexivity.
  - vm_compute. discriminate.
Defined.

(** The samples of a 10 MB flow that took one second: 80 Mb/s, 1 s. *)
Example samples_of_10MB_in_1s :
  throughput_of (Sample.flow 10000000 1) = of_Z 80
  /\ completion_time_of (Sample.flow 10000000 1) = of_Z 1.
Proof. split; vm_compute; reflexivity. Qed.

(** C9. After the flows are processed, the throughput samples and the
    completion-time samples of every bucket are equally many, as they were
    before; from the store of [main] the processing does return a store. *)
Theorem samples_stay_paired (stats : list (FlowId * FlowStats))
    (classifier : FlowId -> FiveTuple)
    (dumbbells : list PointToPointDumbbellHelper)
    (expTimings : list (double * double)) (expData : list ExperimentData) :
  Forall balanced expData ->
  (forall expData' : list ExperimentData,
      ProcessFlowMonitorResults stats classifier dumbbells expTimings expData
      = Some expData' ->
      Forall balanced expData')
  /\ (topology_ok dumbbells -> (10 <= length expData)%nat ->
      exists expData' : list ExperimentData,
        ProcessFlowMonitorResults stats classifier dumbbells expTimings expData
        = Some expData'
        /\ length expData' = length expData
        /\ Forall balanced expData').
Proof.
  intros Hb.
  assert (Hpart : forall expData' : list ExperimentData,
      ProcessFlowMonitorResults stats classifier dumbbells expTimings expData
      = Some expData' -> Forall balanced expData').
  { intros expData' H. unfold ProcessFlowMonitorResults in H.
    destruct (flow_loop classifier dumbbells expTimings stats expData)
      as [mid|] eqn:Hmid; simpl in H; [|discriminate].
    injection H as <-.
    apply Forall_fmap. eapply Forall_impl.
    - eapply flow_loop_balanced; eauto.
    - intros d Hd. apply balanced_reduce. exact Hd. }
  split; [exact Hpart|].
  intros Htop Hlen.
  destruct (flow_loop_total classifier dumbbells expTimings stats expData Htop Hlen)
    as (mid & Hmid & Hl).
  exists (map reduce mid).
  assert (Hr : ProcessFlowMonitorResults stats classifier dumbbells expTimings
                 expData = Some (map reduce mid)).
  { unfold ProcessFlowMonitorResults. rewrite Hmid. reflexivity. }
  split; [exact Hr|]. split; [rewrite length_map; exact Hl|].
  apply Hpart. exact Hr.
Qed.

Lemma main_store_balanced : Forall balanced main_experimentData.
Proof. repeat constructor. Qed.

Lemma samples_stay_paired_witness :
  (forall expData' : list ExperimentData,
      ProcessFlowMonitorResults Sample.stats Sample.classifier Sample.dumbbells
        main_expTimings main_experimentData = Some expData' ->
      Forall balanced expData')
  /\ (topology_ok Sample.dumbbells -> (10 <= length main_experimentData)%nat ->
      exists expData' : list ExperimentData,
        ProcessFlowMonitorResults Sample.stats Sample.classifier Sample.dumbbells
          main_expTimings main_experimentData = Some expData'
        /\ length expData' = length main_experimentData
        /\ Forall balanced expData').
Proof.
  apply samples_stay_paired. exact main_store_balanced.
Defined.

(** ** Strings *)

Section Strings.

Local Open Scope string_scope.

Lemma append_assoc (a b c : string) : (a ++ b) ++ c = a ++ (b ++ c).
Proof. induction a as [|ch a IH]; simpl; [reflexivity|]. now rewrite IH. Qed.

Lemma append_nil_r (a : string) : a ++ "" = a.
Proof. induction a as [|ch a IH]; simpl; [reflexivity|]. now rewrite IH. Qed.

Lemma list_ascii_of_append (a b : string) :
  list_ascii_of_string (a ++ b)
  = (list_ascii_of_string a ++ list_ascii_of_string b)%list.
Proof. induction a as [|ch a IH]; simpl; [reflexivity|]. now rewrite IH. Qed.

Lemma newline_free_append (a b : string) :
  newline_free a -> newline_free b -> newline_free (a ++ b).
Proof.
  unfold newline_free. rewrite list_ascii_of_append. apply Forall_app_2.
Qed.

Lemma newline_free_concat {A : Type} (f : A -> string) (l : list A) :
  (forall x, newline_free (f x)) -> newline_free (concat_strings (map f l)).
Proof.
  intros Hf. induction l as [|x l IH]; simpl.
  - constructor.
  - apply newline_free_append; [apply Hf|exact IH].
Qed.

End Strings.

(** ** Digits hold no line feed *)

Lemma newline_free_uint (d : Decimal.uint) :
  newline_free (NilEmpty.string_of_uint d).
Proof.
  unfold newline_free.
  induction d; simpl; constructor; try assumption; discriminate.
Qed.

Lemma digits_newline_free (n : Z) : Forall (fun c => c <> newline) (Fmt.digits n).
Proof.
  unfold Fmt.digits, NilZero.string_of_uint.
  destruct (N.to_uint (Z.to_N n)) eqn:E;
    try (rewrite <- E; apply newline_free_uint).
  repeat constructor. discriminate.
Qed.

Lemma strip_newline_free (ds : list ascii) :
  Forall (fun c => c <> newline) ds ->
  Forall (fun c => c <> newline) (Fmt.strip_trailing_zeros ds).
Proof.
  induction 1 as [|c rest Hc Hrest IH]; simpl; [constructor|].
  destruct (Fmt.strip_trailing_zeros rest) as [|c' rest'].
  - destruct (Ascii.eqb c "0"); repeat constructor; assumption.
  - constructor; assumption.
Qed.

Lemma fraction_newline_free (ds : list ascii) :
  Forall (fun c => c <> newline) ds ->
  Forall (fun c => c <> newline) (Fmt.fraction ds).
Proof.
  destruct ds; simpl; intros H; [constructor|].
  constructor; [discriminate|exact H].
Qed.

Lemma exponent_digits_newline_free (n : Z) :
  Forall (fun c => c <> newline) (Fmt.exponent_digits n).
Proof.
  unfold Fmt.exponent_digits. destruct (n <? 10).
  - constructor; [discriminate|apply digits_newline_free].
  - apply digits_newline_free.
Qed.

Lemma fmt_g_newline_free (num den : Z) :
  Forall (fun c => c <> newline) (Fmt.fmt_g num den).
Proof.
  unfold Fmt.fmt_g.
  destruct (10 ^ Fmt.precision <=? _).
  all: repeat match goal with
         | |- context [if ?b then _ else _] => destruct b
         end.
  all: repeat first
         [ apply Forall_app_2
         | apply Forall_cons_2; [discriminate|]
         | apply Forall_take
         | apply Forall_drop
         | apply Forall_replicate; discriminate
         | apply fraction_newline_free
         | apply strip_newline_free
         | apply exponent_digits_newline_free
         | apply digits_newline_free ].
Qed.

Lemma fmt_double_newline_free (x : double) : newline_free (Fmt.fmt_double x).
Proof.
  unfold newline_free, Fmt.fmt_double.
  rewrite list_ascii_of_string_of_list_ascii.
  destruct x as [s|s| |s m e]; try destruct s; simpl;
    repeat match goal with
      | |- context [if ?b then _ else _] => destruct b
      end;
    repeat first
      [ apply fmt_g_newline_free
      | apply Forall_cons_2; [discriminate|]
      | apply Forall_nil_2 ].
Qed.

(** ** The rows *)

Ltac bind_some :=
  repeat match goal with
    | |- context [mbind ?f (Some ?x)] =>
        change (mbind f (Some x)) with (f x); cbv beta
    end.

Ltac open_puts :=
  unfold put, render, insert_double, insert_string, insert_int, slot_columns;
  rewrite !append_assoc; reflexivity.

Section Rows.

Local Open Scope string_scope.

Lemma int_of_size_t_le (n : Z) : 0 <= n -> int_of_size_t n <= n.
Proof.
  intros Hn. unfold int_of_size_t.
  pose proof (Z.mod_le (n + 2 ^ 31) (2 ^ 32)). lia.
Qed.

Lemma int_of_size_t_small (n : Z) : 0 <= n < 2 ^ 31 -> int_of_size_t n = n.
Proof.
  intros Hn. unfold int_of_size_t. rewrite Z.mod_small; lia.
Qed.

(** The shown samples are the first ones, at most three of them. *)
Lemma shown_prefix (values : list double) :
  exists n : nat, (n <= 3)%nat /\ (n <= length values)%nat
                  /\ shown values = take n values.
Proof.
  unfold shown.
  pose proof (int_of_size_t_le (Z.of_nat (length values))).
  eexists. split; [|split; [|reflexivity]]; lia.
Qed.

Lemma shown_take_3 (values : list double) :
  Z.of_nat (length values) < 2 ^ 31 -> shown values = take 3 values.
Proof.
  intros Hlen. unfold shown. rewrite int_of_size_t_small by lia.
  destruct (decide (3 <= length values)%nat) as [H3|H3].
  - rewrite Z.min_l by lia. reflexivity.
  - rewrite Z.min_r by lia. rewrite Nat2Z.id.
    rewrite !take_ge by lia. reflexivity.
Qed.

Lemma sample_loop_spec (n i : nat) (values : list double) (csvFile : ofstream) :
  (i + n <= length values)%nat ->
  sample_loop n i values csvFile
  = Some (csvFile
          ++ concat_strings
               (map (fun v => Fmt.fmt_double v ++ ",") (take n (drop i values)))).
Proof.
  revert i csvFile. induction n as [|n IH]; intros i csvFile Hlen; simpl.
  - now rewrite append_nil_r.
  - destruct (lookup_lt_is_Some_2 values i) as [v Hv]; [lia|].
    rewrite Hv. simpl. rewrite IH by lia.
    rewrite (drop_S values v i Hv). simpl.
    unfold put, render, insert_double, insert_string.
    now rewrite !append_assoc.
Qed.

Lemma write_samples_spec (values : list double) (csvFile : ofstream) :
  write_samples values csvFile
  = Some (csvFile
          ++ concat_strings (map (fun v => Fmt.fmt_double v ++ ",") (shown values))).
Proof.
  unfold write_samples, shown.
  pose proof (int_of_size_t_le (Z.of_nat (length values))).
  rewrite sample_loop_spec by (simpl; lia).
  reflexivity.
Qed.

Lemma throughput_row_spec (expData : list ExperimentData) (exp : Z)
    (csvFile : ofstream) (first second : ExperimentData) :
  expData !! Z.to_nat (exp * 2) = Some first ->
  expData !! Z.to_nat (exp * 2 + 1) = Some second ->
  write_throughput_row expData exp csvFile
  = Some (csvFile
          ++ (if ((exp =? 0) || (exp =? 2))%Z
              then throughput_row_single (exp + 1) first
              else throughput_row_dual (exp + 1) first second)
          ++ endl).
Proof.
  intros H1 H2. unfold write_throughput_row. cbv zeta.
  rewrite H1. bind_some. rewrite write_samples_spec. bind_some.
  destruct ((exp =? 0) || (exp =? 2))%Z.
  - unfold throughput_row_single, throughput_columns, slot_columns. open_puts.
  - rewrite H2. bind_some. rewrite write_samples_spec. bind_some.
    unfold throughput_row_dual, throughput_columns, slot_columns. open_puts.
Qed.

Lemma flow_time_row_spec (expData : list ExperimentData) (exp : Z)
    (csvFile : ofstream) (first second : ExperimentData) :
  expData !! Z.to_nat (exp * 2) = Some first ->
  expData !! Z.to_nat (exp * 2 + 1) = Some second ->
  write_flow_time_row expData exp csvFile
  = Some (csvFile
          ++ (if ((exp =? 0) || (exp =? 2))%Z
              then flow_time_row_single (exp + 1) first
              else flow_time_row_dual (exp + 1) first second)
          ++ endl).
Proof.
  intros H1 H2. unfold write_flow_time_row. cbv zeta.
  rewrite H1. bind_some. rewrite write_samples_spec. bind_some.
  destruct ((exp =? 0) || (exp =? 2))%Z.
  - unfold flow_time_row_single, flow_time_columns, slot_columns. open_puts.
  - rewrite H2. bind_some. rewrite write_samples_spec. bind_some.
    unfold flow_time_row_dual, flow_time_columns, slot_columns. open_puts.
Qed.

End Rows.

(** ** The report *)

Section Report.

Local Open Scope string_scope.

Ltac literal_newline_free :=
  unfold newline_free; cbv; repeat (constructor; [discriminate|]); constructor.

Lemma slot_columns_newline_free (values : list double) (mean stddev : double)
    (unit : string) :
  newline_free unit -> newline_free (slot_columns values mean stddev unit).
Proof.
  intros Hunit. unfold slot_columns.
  repeat apply newline_free_append;
    first
      [ apply fmt_double_newline_free
      | exact Hunit
      | apply newline_free_concat; intros v;
        apply newline_free_append; [apply fmt_double_newline_free|literal_newline_free]
      | literal_newline_free ].
Qed.

Lemma throughput_columns_newline_free (d : ExperimentData) :
  newline_free (throughput_columns d).
Proof. apply slot_columns_newline_free. literal_newline_free. Qed.

Lemma flow_time_columns_newline_free (d : ExperimentData) :
  newline_free (flow_time_columns d).
Proof. apply slot_columns_newline_free. literal_newline_free. Qed.

Lemma fmt_int_newline_free (n : Z) : newline_free (Fmt.fmt_int n).
Proof.
  unfold Fmt.fmt_int, NilZero.string_of_int, NilZero.string_of_uint.
  destruct (Z.to_int n) as [d|d]; destruct d eqn:E; try literal_newline_free;
    rewrite <- E; try apply newline_free_uint;
    (apply (newline_free_append "-"); [literal_newline_free|apply newline_free_uint]).
Qed.

Lemma row_newline_free (label : string) (n : Z) (cols tail : string) :
  newline_free label -> newline_free cols -> newline_free tail ->
  newline_free (label ++ Fmt.fmt_int n ++ "," ++ cols ++ tail).
Proof.
  intros Hlabel Hcols Htail.
  apply newline_free_append; [exact Hlabel|].
  apply newline_free_append; [apply fmt_int_newline_free|].
  apply newline_free_append; [literal_newline_free|].
  apply newline_free_append; assumption.
Qed.

Lemma throughput_row_single_newline_free (n : Z) (first : ExperimentData) :
  newline_free (throughput_row_single n first).
Proof.
  apply row_newline_free;
    [literal_newline_free|apply throughput_columns_newline_free|literal_newline_free].
Qed.

Lemma throughput_row_dual_newline_free (n : Z) (first second : ExperimentData) :
  newline_free (throughput_row_dual n first second).
Proof.
  apply row_newline_free;
    [literal_newline_free|apply throughput_columns_newline_free|].
  apply (newline_free_append ","); [literal_newline_free|].
  apply throughput_columns_newline_free.
Qed.

Lemma flow_time_row_single_newline_free (n : Z) (first : ExperimentData) :
  newline_free (flow_time_row_single n first).
Proof.
  unfold flow_time_row_single.
  rewrite <- (append_nil_r (flow_time_columns first)).
  apply row_newline_free;
    [literal_newline_free|apply flow_time_columns_newline_free|literal_newline_free].
Qed.

Lemma flow_time_row_dual_newline_free (n : Z) (first second : ExperimentData) :
  newline_free (flow_time_row_dual n first second).
Proof.
  apply row_newline_free;
    [literal_newline_free|apply flow_time_columns_newline_free|].
  apply (newline_free_append ","); [literal_newline_free|].
  apply flow_time_columns_newline_free.
Qed.

(** The end-to-end example: three 10 MB flows of experiment 1 give the
    store [store_80]. *)
Example pipeline_store_80 :
  ProcessFlowMonitorResults Sample.stats Sample.classifier Sample.dumbbells
    main_expTimings main_experimentData
  = Some store_80.
Proof. vm_compute. reflexivity. Qed.

(** C1, as worded, fails: the throughput row of the single-slot
    experiment 1 with three samples of 80 Mb/s is
    [th_1,80,80,80,80,0,Mbps,] and a line feed; a comma stands between
    [Mbps] and the line feed. *)
Lemma throughput_row_single_slot_counterexample :
  write_throughput_row store_80 0 "" = Some ("th_1,80,80,80,80,0,Mbps," ++ endl)
  /\ write_throughput_row store_80 0 "" <> Some ("th_1,80,80,80,80,0,Mbps" ++ endl)
  /\ ~ exists body : string,
         write_throughput_row store_80 0 "" = Some (body ++ "Mbps" ++ endl).
Proof.
  assert (Hrow : write_throughput_row store_80 0 ""
                 = Some ("th_1,80,80,80,80,0,Mbps," ++ endl))
    by (vm_compute; reflexivity).
  split; [exact Hrow|]. rewrite Hrow.
  split; [intros H; vm_compute in H; discriminate H|].
  intros [body H]. injection H as H. revert H. simpl.
  repeat (destruct body as [|? body]; simpl;
          [discriminate|intros H; injection H as _ H; revert H]).
  destruct body; simpl; discriminate.
Qed.

(** C1, amended. The throughput row of an experiment with one stream
    slot holds the label, the columns of slot 1 up to the unit [Mbps],
    then one comma and the line feed; no column of slot 2 is written. *)
Theorem throughput_row_single_slot (expData : list ExperimentData)
    (expIdx : nat) (setup : ExperimentSetup) (first : ExperimentData)
    (csvFile : ofstream) :
  main_experiments !! expIdx = Some setup -> twoSenders setup = false ->
  expData !! bucket expIdx 0 = Some first ->
  write_throughput_row expData (Z.of_nat expIdx) csvFile
  = Some (csvFile ++ "th_" ++ Fmt.fmt_int (Z.of_nat expIdx + 1) ++ ","
          ++ slot_columns (throughputs first) (meanThroughput first)
               (stddevThroughput first) "Mbps"
          ++ "," ++ endl).
Proof.
  intros Hsetup Hone Hfirst. unfold bucket in Hfirst.
  assert (Hexp : ((Z.of_nat expIdx =? 0) || (Z.of_nat expIdx =? 2))%Z = true).
  { do 5 (destruct expIdx as [|expIdx]; [simplify_eq/=; try discriminate; reflexivity|]).
    simplify_eq/=. }
  unfold write_throughput_row. cbv zeta.
  replace (Z.to_nat (Z.of_nat expIdx * 2)) with (expIdx * 2 + 0)%nat by lia.
  rewrite Hfirst. bind_some. rewrite write_samples_spec. bind_some.
  rewrite Hexp. open_puts.
Qed.

Lemma throughput_row_single_slot_witness :
  write_throughput_row store_80 (Z.of_nat 0) ""
  = Some ("" ++ "th_" ++ Fmt.fmt_int (Z.of_nat 0 + 1) ++ ","
          ++ slot_columns [of_Z 80; of_Z 80; of_Z 80] (of_Z 80) zero "Mbps"
          ++ "," ++ endl).
Proof.
  apply (throughput_row_single_slot store_80 0 (mkSetup 0 false)
           (mkExperimentData [of_Z 80; of_Z 80; of_Z 80] [of_Z 1; of_Z 1; of_Z 1]
              (of_Z 80) zero (of_Z 1) zero) "").
  - reflexivity.
  - reflexivity.
  - reflexivity.
Defined.

(** C8. In table 2, the row of an experiment with one stream slot ends
    right after the unit [sec]; the row of an experiment with two slots
    has a comma after the [sec] of slot 1, then the columns of slot 2:
    its samples, each followed by a comma, its mean, its standard
    deviation and [sec]. *)
Theorem flow_time_row_layout (expData : list ExperimentData)
    (expIdx : nat) (setup : ExperimentSetup) (first second : ExperimentData)
    (csvFile : ofstream) :
  main_experiments !! expIdx = Some setup ->
  expData !! bucket expIdx 0 = Some first ->
  expData !! bucket expIdx 1 = Some second ->
  write_flow_time_row expData (Z.of_nat expIdx) csvFile
  = Some (csvFile ++ "afct_" ++ Fmt.fmt_int (Z.of_nat expIdx + 1) ++ ","
          ++ slot_columns (flowTimes first) (meanFlowTime first)
               (stddevFlowTime first) "sec"
          ++ (if twoSenders setup
              then "," ++ slot_columns (flowTimes second) (meanFlowTime second)
                            (stddevFlowTime second) "sec"
              else "")
          ++ endl).
Proof.
  intros Hsetup Hfirst Hsecond. unfold bucket in *.
  assert (Hexp : ((Z.of_nat expIdx =? 0) || (Z.of_nat expIdx =? 2))%Z
                 = negb (twoSenders setup)).
  { do 5 (destruct expIdx as [|expIdx]; [simplify_eq/=; reflexivity|]).
    simplify_eq/=. }
  unfold write_flow_time_row. cbv zeta.
  replace (Z.to_nat (Z.of_nat expIdx * 2)) with (expIdx * 2 + 0)%nat by lia.
  replace (Z.to_nat (Z.of_nat expIdx * 2 + 1)) with (expIdx * 2 + 1)%nat by lia.
  rewrite Hfirst. bind_some. rewrite write_samples_spec. bind_some.
  rewrite Hexp. destruct (twoSenders setup); simpl negb; cbv iota.
  - rewrite Hsecond. bind_some. rewrite write_samples_spec. bind_some. open_puts.
  - open_puts.
Qed.

Lemma flow_time_row_layout_witness :
  write_flow_time_row store_80 (Z.of_nat 1) ""
  = Some ("" ++ "afct_" ++ Fmt.fmt_int (Z.of_nat 1 + 1) ++ ","
          ++ slot_columns (flowTimes empty_bucket) (meanFlowTime empty_bucket)
               (stddevFlowTime empty_bucket) "sec"
          ++ (if twoSenders (mkSetup 0 true)
              then "," ++ slot_columns (flowTimes empty_bucket)
                            (meanFlowTime empty_bucket)
                            (stddevFlowTime empty_bucket) "sec"
              else "")
          ++ endl).
Proof.
  apply (flow_time_row_layout store_80 1 (mkSetup 0 true)
           empty_bucket empty_bucket "").
  - reflexivity.
  - reflexivity.
  - reflexivity.
Defined.

(** The rows of table 2 for the end-to-end example. *)
Example flow_time_rows_80 :
  write_flow_time_row store_80 0 "" = Some ("afct_1,1,1,1,1,0,sec" ++ endl)
  /\ write_flow_time_row store_80 1 "" = Some ("afct_2,0,0,sec,0,0,sec" ++ endl).
Proof. split; vm_compute; reflexivity. Qed.

(** C10. Whatever the ten buckets hold, the report has eleven lines: the
    header, the throughput rows [th_1] to [th_5], then the
    completion-time rows [afct_1] to [afct_5]; experiments 1 and 3 have
    rows of one slot, experiments 2, 4 and 5 rows of two slots; a slot
    shows the first samples of its sequence, three at most, and no more
    than it holds. *)
Theorem report_layout (filename : string)
    (b0 b1 b2 b3 b4 b5 b6 b7 b8 b9 : ExperimentData) :
  let rows :=
    [ header;
      throughput_row_single 1 b0;
      throughput_row_dual 2 b2 b3;
      throughput_row_single 3 b4;
      throughput_row_dual 4 b6 b7;
      throughput_row_dual 5 b8 b9;
      flow_time_row_single 1 b0;
      flow_time_row_dual 2 b2 b3;
      flow_time_row_single 3 b4;
      flow_time_row_dual 4 b6 b7;
      flow_time_row_dual 5 b8 b9 ] in
  WriteResultsCsv filename [b0; b1; b2; b3; b4; b5; b6; b7; b8; b9]
  = Some (unlines rows)
  /\ length rows = 11%nat
  /\ Forall newline_free rows
  /\ (forall values : list double,
        exists n : nat,
          (n <= 3)%nat /\ (n <= length values)%nat
          /\ shown values = take n values)
  /\ (forall values : list double,
        (Z.of_nat (length values) < 2 ^ 31)%Z ->
        shown values = take 3 values).
Proof.
  intros rows. split; [|split; [reflexivity|split; [|split]]].
  - set (store := [b0; b1; b2; b3; b4; b5; b6; b7; b8; b9]).
    unfold WriteResultsCsv, for_range. cbv zeta.
    change (seqZ 0 (5 - 0)) with [0; 1; 2; 3; 4]%Z.
    cbn [foldl]. bind_some.
    rewrite (throughput_row_spec store 0 _ b0 b1 eq_refl eq_refl). bind_some.
    rewrite (throughput_row_spec store 1 _ b2 b3 eq_refl eq_refl). bind_some.
    rewrite (throughput_row_spec store 2 _ b4 b5 eq_refl eq_refl). bind_some.
    rewrite (throughput_row_spec store 3 _ b6 b7 eq_refl eq_refl). bind_some.
    rewrite (throughput_row_spec store 4 _ b8 b9 eq_refl eq_refl). bind_some.
    cbn [foldl]. bind_some.
    rewrite (flow_time_row_spec store 0 _ b0 b1 eq_refl eq_refl). bind_some.
    rewrite (flow_time_row_spec store 1 _ b2 b3 eq_refl eq_refl). bind_some.
    rewrite (flow_time_row_spec store 2 _ b4 b5 eq_refl eq_refl). bind_some.
    rewrite (flow_time_row_spec store 3 _ b6 b7 eq_refl eq_refl). bind_some.
    rewrite (flow_time_row_spec store 4 _ b8 b9 eq_refl eq_refl).
    subst rows. unfold unlines. cbn [map concat_strings].
    unfold put, render, insert_string.
    cbn [Z.eqb orb Z.add Pos.add Pos.succ Pos.eqb].
    rewrite !append_assoc, append_nil_r. reflexivity.
  - subst rows.
    repeat match goal with
      | |- Forall newline_free (_ :: _) => apply Forall_cons_2
      | |- Forall newline_free [] => apply Forall_nil_2
      end;
      first
        [ apply throughput_row_single_newline_free
        | apply throughput_row_dual_newline_free
        | apply flow_time_row_single_newline_free
        | apply flow_time_row_dual_newline_free
        | literal_newline_free ].
  - exact shown_prefix.
  - exact shown_take_3.
Qed.

End Report.

(** ** Statistics: sign and NaN *)

Lemma binary_round_aux_sign (sx : bool) (mx ex : Z) (lx : location) :
  match binary_round_aux prec emax sx mx ex lx with
  | S754_nan => True
  | S754_zero s | S754_infinity s | S754_finite s _ _ => s = sx
  end.
Proof.
  unfold binary_round_aux.
  destruct (shr_fexp prec emax mx ex lx) as [mrs' e'].
  destruct (shr_fexp prec emax _ e' loc_Exact) as [mrs'' e''].
  destruct (shr_m mrs''); [reflexivity| |exact I].
  destruct (e'' <=? emax - prec); reflexivity.
Qed.

Lemma binary_round_aux_nonneg (mx ex : Z) (lx : location) :
  nonneg_or_nan (binary_round_aux prec emax false mx ex lx) = true.
Proof.
  pose proof (binary_round_aux_sign false mx ex lx) as H.
  destruct (binary_round_aux prec emax false mx ex lx); simpl; subst; reflexivity.
Qed.

Lemma binary_round_nonneg (m : positive) (e : Z) :
  nonneg_or_nan (binary_round prec emax false m e) = true.
Proof.
  unfold binary_round.
  destruct (shl_align m e _) as [mz ez]. apply binary_round_aux_nonneg.
Qed.

Lemma of_Z_nonneg (z : Z) : 0 <= z -> nonneg_or_nan (of_Z z) = true.
Proof.
  intros Hz. unfold of_Z, binary_normalize.
  destruct z as [|p|p]; [reflexivity|apply binary_round_nonneg|lia].
Qed.

Lemma pow_2_nonneg (x : double) : nonneg_or_nan (pow_2 x) = true.
Proof.
  unfold pow_2, mul. destruct x as [s|s| |s m e]; simpl;
    rewrite ?xorb_nilpotent; try reflexivity.
  apply binary_round_aux_nonneg.
Qed.

Lemma add_nonneg (x y : double) :
  nonneg_or_nan x = true -> nonneg_or_nan y = true ->
  nonneg_or_nan (x + y)%D = true.
Proof.
  unfold add.
  destruct x as [sx|sx| |sx mx ex], y as [sy|sy| |sy my ey]; simpl;
    try reflexivity; intros Hx Hy;
    apply negb_true_iff in Hx; apply negb_true_iff in Hy; subst; simpl;
    try reflexivity.
  unfold binary_normalize. simpl.
  apply binary_round_nonneg.
Qed.

Lemma div_nonneg (x y : double) :
  nonneg_or_nan x = true -> nonneg_or_nan y = true ->
  nonneg_or_nan (x / y)%D = true.
Proof.
  unfold div.
  destruct x as [sx|sx| |sx mx ex], y as [sy|sy| |sy my ey]; simpl;
    try reflexivity; intros Hx Hy;
    apply negb_true_iff in Hx; apply negb_true_iff in Hy; subst; simpl;
    try reflexivity.
  destruct (SFdiv_core_binary prec emax (Z.pos mx) ex (Z.pos my) ey) as [[mz ez] lz].
  apply binary_round_aux_nonneg.
Qed.

Lemma sqrt_nonneg (x : double) :
  nonneg_or_nan x = true -> nonneg_or_nan (sqrt x) = true.
Proof.
  unfold sqrt.
  destruct x as [s|s| |s m e]; simpl; try reflexivity; intros Hx;
    apply negb_true_iff in Hx; subst; simpl; try reflexivity.
  destruct (SFsqrt_core_binary prec emax (Z.pos m) e) as [[mz ez] lz].
  apply binary_round_aux_nonneg.
Qed.

Lemma sum_squares_nonneg (mean : double) (values : list double) (acc : double) :
  nonneg_or_nan acc = true ->
  nonneg_or_nan
    (for_each values (fun stddev val => stddev + pow_2 (val - mean))%D acc) = true.
Proof.
  revert acc. induction values as [|v rest IH]; intros acc Hacc; simpl.
  - exact Hacc.
  - apply IH. apply add_nonneg; [exact Hacc|apply pow_2_nonneg].
Qed.

(** X1. The standard deviation that [CalculateStats] returns is never
    negative: it is a NaN or has a clear sign bit, whatever the samples. *)
Theorem stddev_never_negative (values : list double) :
  nonneg_or_nan (snd (CalculateStats values)) = true.
Proof.
  unfold CalculateStats.
  destruct (bool_decide (values = [])); [reflexivity|]. simpl.
  apply sqrt_nonneg. apply div_nonneg.
  - apply sum_squares_nonneg. reflexivity.
  - apply of_Z_nonneg. lia.
Qed.

Lemma absorbed_not_finite (v x : double) : absorbed_by v x -> is_finite x = false.
Proof.
  destruct v; simpl; try contradiction; intros H;
    repeat destruct H as [H|H]; subst; reflexivity.
Qed.

Lemma absorbed_add (v x y : double) : absorbed_by v x -> absorbed_by v (x + y)%D.
Proof.
  unfold add. destruct v as [s|s| |s m e]; simpl; try contradiction.
  - intros [->| ->]; [left; reflexivity|].
    destruct y as [sy|sy| |sy my ey]; simpl; auto.
    destruct s, sy; auto.
  - intros ->. reflexivity.
Qed.

Lemma absorbed_add_self (v x : double) :
  is_finite v = false -> absorbed_by v (x + v)%D.
Proof.
  unfold add. destruct v as [s|s| |s m e]; simpl; try discriminate; intros _.
  - destruct x as [sx|sx| |sx mx ex]; simpl; auto.
    destruct sx, s; auto.
  - destruct x; reflexivity.
Qed.

Lemma absorbed_sum (v : double) (values : list double) (acc : double) :
  absorbed_by v acc ->
  absorbed_by v (for_each values (fun mean val => mean + val)%D acc).
Proof.
  revert acc. induction values as [|w rest IH]; intros acc H; simpl; [exact H|].
  apply IH. apply absorbed_add. exact H.
Qed.

Lemma absorbed_sum_elem (v : double) (values : list double) (acc : double) :
  v ∈ values -> is_finite v = false ->
  absorbed_by v (for_each values (fun mean val => mean + val)%D acc).
Proof.
  intros Hin Hv. revert acc.
  induction values as [|w rest IH]; intros acc; [inversion Hin|].
  simpl. apply elem_of_cons in Hin as [<-|Hin].
  - apply absorbed_sum. apply absorbed_add_self. exact Hv.
  - apply IH. exact Hin.
Qed.

Lemma absorbed_div (v x n : double) :
  absorbed_by v x -> nonneg_or_nan n = true -> absorbed_by v (x / n)%D.
Proof.
  unfold div. destruct v as [s|s| |s m e]; simpl; try contradiction.
  - intros [->| ->] Hn; [left; reflexivity|].
    destruct n as [sn|sn| |sn mn en]; simpl in *; auto;
      apply negb_true_iff in Hn; subst; rewrite xorb_false_r; auto.
  - intros -> _. reflexivity.
Qed.

Lemma absorbed_square (v m : double) :
  is_finite v = false -> absorbed_by v m -> pow_2 (v - m)%D = S754_nan.
Proof.
  unfold pow_2, mul, sub.
  destruct v as [s|s| |s mv ev]; simpl; try discriminate; intros _.
  - intros [->| ->]; [reflexivity|]. destruct s; reflexivity.
  - intros ->. reflexivity.
Qed.

Lemma add_nan_r (x : double) : (x + S754_nan)%D = S754_nan.
Proof. destruct x; reflexivity. Qed.

Lemma nan_sum (f : double -> double) (values : list double) :
  for_each values (fun s val => s + f val)%D S754_nan = S754_nan.
Proof. induction values as [|w rest IH]; simpl; [reflexivity|exact IH]. Qed.

Lemma nan_sum_elem (f : double -> double) (v : double) (values : list double)
    (acc : double) :
  v ∈ values -> f v = S754_nan ->
  for_each values (fun s val => s + f val)%D acc = S754_nan.
Proof.
  intros Hin Hf. revert acc.
  induction values as [|w rest IH]; intros acc; [inversion Hin|].
  simpl. apply elem_of_cons in Hin as [<-|Hin].
  - rewrite Hf, add_nan_r. apply nan_sum.
  - apply IH. exact Hin.
Qed.

Lemma stats_of_non_finite_sample (values : list double) (v : double) :
  v ∈ values -> is_finite v = false ->
  is_finite (fst (CalculateStats values)) = false
  /\ snd (CalculateStats values) = S754_nan.
Proof.
  intros Hin Hv. unfold CalculateStats.
  rewrite bool_decide_eq_false_2 by (intros ->; inversion Hin). simpl.
  set (n := of_Z (Z.of_nat (length values))).
  assert (Hn : nonneg_or_nan n = true) by (apply of_Z_nonneg; lia).
  set (mean := (for_each values (fun mean val => mean + val)%D zero / n)%D).
  assert (Hmean : absorbed_by v mean).
  { apply absorbed_div; [|exact Hn]. apply absorbed_sum_elem; assumption. }
  split; [exact (absorbed_not_finite v mean Hmean)|].
  rewrite (nan_sum_elem (fun val => pow_2 (val - mean)%D) v values zero Hin
             (absorbed_square v mean Hv Hmean)).
  reflexivity.
Qed.

(** X2. One sample that is a NaN or an infinity spoils the statistics of
    its sequence: the mean is no finite number and the standard deviation
    is a NaN. *)
Theorem non_finite_sample_spoils_stats (values : list double) (v : double) :
  v ∈ values -> is_finite v = false ->
  is_finite (fst (CalculateStats values)) = false
  /\ snd (CalculateStats values) = S754_nan.
Proof. apply stats_of_non_finite_sample. Qed.

Lemma non_finite_sample_spoils_stats_witness :
  is_finite (fst (CalculateStats [of_Z 80; S754_infinity false; of_Z 80])) = false
  /\ snd (CalculateStats [of_Z 80; S754_infinity false; of_Z 80]) = S754_nan.
Proof.
  apply (non_finite_sample_spoils_stats _ (S754_infinity false)).
  - apply list_elem_of_In. simpl. auto.
  - reflexivity.
Defined.

(** ** Flows of no duration *)

Lemma sub_self (x : double) : is_finite x = true -> (x - x)%D = zero.
Proof.
  unfold sub, zero. destruct x as [s|s| |s m e]; simpl; try discriminate; intros _.
  - destruct s; reflexivity.
  - rewrite Z.sub_diag. reflexivity.
Qed.

Lemma div_zero_not_finite (x : double) : is_finite (x / zero)%D = false.
Proof. destruct x; reflexivity. Qed.

Lemma div_not_finite (x y : double) :
  is_finite x = false -> is_finite (x / y)%D = false.
Proof. destruct x, y; simpl; try discriminate; reflexivity. Qed.

Lemma zero_duration_throughput (st : FlowStats) :
  timeLastRxPacket st = timeFirstTxPacket st ->
  is_finite (timeFirstTxPacket st) = true ->
  is_finite (throughput_of st) = false.
Proof.
  intros Heq Hfin. unfold throughput_of. rewrite Heq, (sub_self _ Hfin).
  apply div_not_finite. apply div_zero_not_finite.
Qed.

(** X3. The division by the duration is not guarded: when the last
    reception of a flow carries the time of its first transmission, the
    throughput sample that the flow appends to its bucket is an infinity
    or a NaN. *)
Theorem zero_duration_sample_not_finite
    (dumbbells : list PointToPointDumbbellHelper)
    (expTimings : list (double * double)) (tuple : FiveTuple) (st : FlowStats)
    (expData expData' : list ExperimentData) (k : nat) :
  timeLastRxPacket st = timeFirstTxPacket st ->
  is_finite (timeFirstTxPacket st) = true ->
  process_flow dumbbells expTimings tuple st expData = Some expData' ->
  expData' !! k <> expData !! k ->
  exists (d d' : ExperimentData) (x : double),
    expData !! k = Some d /\ expData' !! k = Some d'
    /\ throughputs d' = throughputs d ++ [x]
    /\ is_finite x = false.
Proof.
  intros Heq Hfin H Hk.
  apply process_flow_effect in H
    as [->|(expIdx & slot & _ & _ & _ & _ & Hlen & ->)]; [contradiction|].
  destruct (decide (bucket expIdx slot = k)) as [<-|Hne].
  - destruct (lookup_lt_is_Some_2 _ _ Hlen) as [d Hd].
    exists d, (record_sample st d), (throughput_of st).
    rewrite list_lookup_alter_eq, Hd.
    repeat split. apply zero_duration_throughput; assumption.
  - rewrite list_lookup_alter_ne in Hk by exact Hne. contradiction.
Qed.

Lemma zero_duration_sample_not_finite_witness :
  exists (d d' : ExperimentData) (x : double),
    main_experimentData !! 0%nat = Some d
    /\ alter (record_sample (mkFlowStats 2000000 (of_Z 12) (of_Z 13) (of_Z 12)))
         0%nat main_experimentData !! 0%nat = Some d'
    /\ throughputs d' = throughputs d ++ [x]
    /\ is_finite x = false.
Proof.
  apply (zero_duration_sample_not_finite Sample.dumbbells main_expTimings
           (Sample.tuple_from Sample.stranger)
           (mkFlowStats 2000000 (of_Z 12) (of_Z 13) (of_Z 12))
           main_experimentData).
  - reflexivity.
  - reflexivity.
  - vm_compute. reflexivity.
  - vm_compute. discriminate.
Defined.

(** ** The classification as a function *)

Lemma list_find_first_window (expTimings : list (double * double)) (t : double)
    (expIdx : nat) (w : double * double) :
  list_find (fun w => in_window t w = true) expTimings = Some (expIdx, w) ->
  first_window expTimings t expIdx.
Proof.
  intros H. apply list_find_Some in H as (Hl & Hw & Hbefore).
  split; [eauto|]. intros j wj Hj Hlj.
  destruct (in_window t wj) eqn:E; [|reflexivity].
  exfalso. exact (Hbefore j wj Hlj Hj E).
Qed.

Lemma attribute_beyond (dumbbells : list PointToPointDumbbellHelper) (expIdx : nat)
    (tuple : FiveTuple) (t f : double) (expData : list ExperimentData) :
  (5 <= expIdx)%nat ->
  attribute dumbbells expIdx tuple t f expData = Some expData.
Proof.
  intros H. do 5 (destruct expIdx as [|expIdx]; [lia|]). reflexivity.
Qed.

Lemma push_samples_bounds (k : nat) (t f : double) (expData : list ExperimentData) :
  push_samples k t f expData
  = if decide (k < length expData)%nat
    then Some (alter (add_sample t f) k expData) else None.
Proof.
  destruct (decide (k < length expData)%nat) as [Hk|Hk].
  - apply push_samples_alter. exact Hk.
  - unfold push_samples, push_throughput.
    rewrite (lookup_ge_None_2 expData k) by lia. reflexivity.
Qed.

Lemma topology_left_leaves (dumbbells : list PointToPointDumbbellHelper) (n : nat) :
  topology_ok dumbbells -> (n <= 2)%nat ->
  exists (d : PointToPointDumbbellHelper) (a b : Ipv4Address),
    dumbbells !! n = Some d
    /\ GetLeftIpv4Address d 0 = Some a /\ GetLeftIpv4Address d 1 = Some b.
Proof.
  intros [Hlen Hleaves] Hn.
  destruct (lookup_lt_is_Some_2 dumbbells n) as [d Hd]; [lia|].
  assert (Hd2 : (2 <= length (leftLeafAddresses d))%nat).
  { rewrite Forall_lookup in Hleaves. exact (Hleaves n d Hd). }
  destruct (lookup_lt_is_Some_2 (leftLeafAddresses d) 0) as [a Ha]; [lia|].
  destruct (lookup_lt_is_Some_2 (leftLeafAddresses d) 1) as [b Hb]; [lia|].
  exists d, a, b. auto.
Qed.

(** One flow, through [classify]. *)
Lemma process_flow_by_class (dumbbells : list PointToPointDumbbellHelper)
    (expTimings : list (double * double)) (tuple : FiveTuple) (st : FlowStats)
    (expData : list ExperimentData) :
  topology_ok dumbbells ->
  process_flow dumbbells expTimings tuple st expData
  = match classify dumbbells expTimings tuple st with
    | None => Some expData
    | Some k =>
        if decide (k < length expData)%nat
        then Some (alter (record_sample st) k expData)
        else None
    end.
Proof.
  intros Htop. unfold classify.
  destruct (1000000 <? rxBytes st) eqn:Hrx.
  2: { apply process_flow_below. apply Z.ltb_ge in Hrx. exact Hrx. }
  apply Z.ltb_lt in Hrx.
  destruct (list_find _ expTimings) as [[expIdx w]|] eqn:Hfind; simpl.
  2: { apply flow_outside_windows_discarded.
       apply list_find_None in Hfind.
       eapply Forall_impl; [exact Hfind|].
       intros w Hw. simpl in Hw. destruct (in_window _ w); congruence. }
  rewrite (process_flow_at dumbbells expTimings tuple st expData expIdx Hrx
             (list_find_first_window _ _ _ _ Hfind)).
  unfold record_sample.
  destruct (main_experiments !! expIdx) as [setup|] eqn:Hsetup; simpl.
  2: { apply attribute_beyond. apply lookup_ge_None_1 in Hsetup.
       simpl in Hsetup. exact Hsetup. }
  unfold bucket.
  do 5 (destruct expIdx as [|expIdx]; [
    simplify_eq/=; unfold attribute; simpl;
    rewrite ?Nat.add_0_r;
    try (match goal with
         | |- context [dumbbells !! ?n] =>
             destruct (topology_left_leaves dumbbells n Htop ltac:(lia))
               as (d & a & b & Hd & Ha & Hb);
             rewrite (source_is_left_Some _ _ _ tuple _ _ Hd Ha); simpl;
             rewrite Hd; simpl; rewrite Ha; simpl;
             destruct (Ipv4Address_eqb (sourceAddress tuple) a);
               [rewrite push_samples_bounds; reflexivity|];
             rewrite (source_is_left_Some _ _ _ tuple _ _ Hd Hb); simpl;
             rewrite Hb; simpl;
             destruct (Ipv4Address_eqb (sourceAddress tuple) b);
               [rewrite push_samples_bounds; reflexivity|reflexivity]
         end);
    rewrite push_samples_bounds; reflexivity |]).
  simplify_eq/=.
Qed.

(** X4. With the topology of [main], what one flow does to the store is
    decided by [classify]: no bucket, and the store is left as it is; or
    the bucket [k], and the samples of the flow are appended to it; when
    the store has no bucket [k], the access is out of bounds. *)
Theorem process_flow_classify (dumbbells : list PointToPointDumbbellHelper)
    (expTimings : list (double * double)) (tuple : FiveTuple) (st : FlowStats)
    (expData : list ExperimentData) :
  topology_ok dumbbells ->
  process_flow dumbbells expTimings tuple st expData
  = match classify dumbbells expTimings tuple st with
    | None => Some expData
    | Some k =>
        if decide (k < length expData)%nat
        then Some (alter (record_sample st) k expData)
        else None
    end.
Proof. apply process_flow_by_class. Qed.

Lemma process_flow_classify_witness :
  process_flow Sample.dumbbells main_expTimings
    (Sample.tuple_from (Sample.addr 10 1 1 5)) (Sample.flow 2000000 40)
    main_experimentData
  = match classify Sample.dumbbells main_expTimings
            (Sample.tuple_from (Sample.addr 10 1 1 5)) (Sample.flow 2000000 40) with
    | None => Some main_experimentData
    | Some k =>
        if decide (k < length main_experimentData)%nat
        then Some (alter (record_sample (Sample.flow 2000000 40)) k
                     main_experimentData)
        else None
    end.
Proof. apply process_flow_classify. exact sample_topology_ok. Defined.

(** The buckets of the classification are the first ten. *)
Lemma classify_bound (dumbbells : list PointToPointDumbbellHelper)
    (expTimings : list (double * double)) (tuple : FiveTuple) (st : FlowStats)
    (k : nat) :
  classify dumbbells expTimings tuple st = Some k -> (k < 10)%nat.
Proof.
  unfold classify. intros H.
  destruct (1000000 <? rxBytes st); [|discriminate].
  destruct (list_find _ expTimings) as [[expIdx w]|]; simpl in H; [|discriminate].
  destruct (main_experiments !! expIdx) as [setup|] eqn:Hsetup; simpl in H;
    [|discriminate].
  apply lookup_lt_Some in Hsetup. simpl in Hsetup.
  assert (Hb : forall slot, (slot <= 1)%nat -> (bucket expIdx slot < 10)%nat)
    by (intros slot Hs; unfold bucket; lia).
  repeat match type of H with
    | context [if ?b then _ else _] => destruct b
    | context [mbind _ ?o] => destruct o; simpl in H
    end; simplify_eq/=; apply Hb; lia.
Qed.

Lemma add_flows_cons (st : FlowStats) (fs : list FlowStats) (d : ExperimentData) :
  add_flows fs (record_sample st d) = add_flows (st :: fs) d.
Proof.
  unfold add_flows, record_sample, add_sample. simpl.
  rewrite <- !app_assoc. reflexivity.
Qed.

Lemma flows_of_bucket_cons (classifier : FlowId -> FiveTuple)
    (dumbbells : list PointToPointDumbbellHelper)
    (expTimings : list (double * double)) (k : nat)
    (it : FlowId * FlowStats) (stats : list (FlowId * FlowStats)) :
  flows_of_bucket classifier dumbbells expTimings k (it :: stats)
  = if decide (classify dumbbells expTimings (classifier (fst it)) (snd it) = Some k)
    then snd it :: flows_of_bucket classifier dumbbells expTimings k stats
    else flows_of_bucket classifier dumbbells expTimings k stats.
Proof.
  unfold flows_of_bucket. rewrite filter_cons.
  destruct (decide _); reflexivity.
Qed.

(** The loop over the flows hands every bucket its own flows, in the order
    of the table. *)
Lemma flow_loop_collect (classifier : FlowId -> FiveTuple)
    (dumbbells : list PointToPointDumbbellHelper)
    (expTimings : list (double * double)) (stats : list (FlowId * FlowStats))
    (expData : list ExperimentData) :
  topology_ok dumbbells -> (10 <= length expData)%nat ->
  exists expData' : list ExperimentData,
    flow_loop classifier dumbbells expTimings stats expData = Some expData'
    /\ length expData' = length expData
    /\ forall (k : nat) (d : ExperimentData),
         expData !! k = Some d ->
         expData' !! k
         = Some (add_flows (flows_of_bucket classifier dumbbells expTimings k stats) d).
Proof.
  intros Htop. revert expData.
  induction stats as [|it stats IH]; intros expData Hlen.
  - exists expData. split; [reflexivity|]. split; [reflexivity|].
    intros k d Hd. rewrite Hd. f_equal.
    unfold add_flows, flows_of_bucket. simpl. rewrite !app_nil_r.
    destruct d; reflexivity.
  - simpl flow_loop.
    rewrite (process_flow_by_class _ _ _ _ expData Htop).
    destruct (classify dumbbells expTimings (classifier it.1) it.2) as [kc|] eqn:Hc.
    + pose proof (classify_bound _ _ _ _ _ Hc) as Hkc.
      rewrite decide_True by lia. simpl.
      destruct (IH (alter (record_sample it.2) kc expData)) as (r & Hr & Hlr & Hall);
        [rewrite length_alter; exact Hlen|].
      exists r. split; [exact Hr|]. split; [rewrite Hlr; apply length_alter|].
      intros k d Hd. rewrite flows_of_bucket_cons, Hc.
      destruct (decide (Some kc = Some k)) as [Heq|Hne].
      * injection Heq as ->. rewrite <- add_flows_cons. apply Hall.
        rewrite list_lookup_alter_eq, Hd. reflexivity.
      * apply Hall. rewrite list_lookup_alter_ne by congruence. exact Hd.
    + simpl. destruct (IH expData Hlen) as (r & Hr & Hlr & Hall).
      exists r. split; [exact Hr|]. split; [exact Hlr|].
      intros k d Hd. rewrite flows_of_bucket_cons, Hc.
      rewrite decide_False by discriminate. apply Hall. exact Hd.
Qed.

(** X5. With the topology and the store of [main], processing the flow
    table always returns a store of the same size, in which every bucket
    holds its former samples followed by the samples of its own flows, in
    the order of the table, and in which mean and standard deviation of
    every bucket are those of all its samples. *)
Theorem buckets_collect_flows_in_order (stats : list (FlowId * FlowStats))
    (classifier : FlowId -> FiveTuple)
    (dumbbells : list PointToPointDumbbellHelper)
    (expTimings : list (double * double)) (expData : list ExperimentData) :
  topology_ok dumbbells -> (10 <= length expData)%nat ->
  exists expData' : list ExperimentData,
    ProcessFlowMonitorResults stats classifier dumbbells expTimings expData
    = Some expData'
    /\ length expData' = length expData
    /\ forall (k : nat) (d : ExperimentData),
         expData !! k = Some d ->
         exists d' : ExperimentData,
           expData' !! k = Some d'
           /\ throughputs d'
              = throughputs d
                ++ map throughput_of
                     (flows_of_bucket classifier dumbbells expTimings k stats)
           /\ flowTimes d'
              = flowTimes d
                ++ map completion_time_of
                     (flows_of_bucket classifier dumbbells expTimings k stats)
           /\ (meanThroughput d', stddevThroughput d')
              = CalculateStats (throughputs d')
           /\ (meanFlowTime d', stddevFlowTime d')
              = CalculateStats (flowTimes d').
Proof.
  intros Htop Hlen.
  destruct (flow_loop_collect classifier dumbbells expTimings stats expData Htop Hlen)
    as (mid & Hmid & Hl & Hall).
  exists (map reduce mid). unfold ProcessFlowMonitorResults. rewrite Hmid.
  split; [reflexivity|]. split; [rewrite length_map; exact Hl|].
  intros k d Hd.
  exists (reduce (add_flows (flows_of_bucket classifier dumbbells expTimings k stats) d)).
  split.
  - change (map reduce mid) with (reduce <$> mid).
    rewrite list_lookup_fmap, (Hall k d Hd). reflexivity.
  - unfold reduce.
    destruct (CalculateStats (throughputs (add_flows _ d))) as [mT sT] eqn:ET.
    destruct (CalculateStats (flowTimes (add_flows _ d))) as [mF sF] eqn:EF.
    simpl in *. rewrite ET, EF. auto.
Qed.

Lemma buckets_collect_flows_in_order_witness :
  exists expData' : list ExperimentData,
    ProcessFlowMonitorResults Sample.stats Sample.classifier Sample.dumbbells
      main_expTimings main_experimentData = Some expData'
    /\ length expData' = length main_experimentData
    /\ forall (k : nat) (d : ExperimentData),
         main_experimentData !! k = Some d ->
         exists d' : ExperimentData,
           expData' !! k = Some d'
           /\ throughputs d'
              = throughputs d
                ++ map throughput_of
                     (flows_of_bucket Sample.classifier Sample.dumbbells
                        main_expTimings k Sample.stats)
           /\ flowTimes d'
              = flowTimes d
                ++ map completion_time_of
                     (flows_of_bucket Sample.classifier Sample.dumbbells
                        main_expTimings k Sample.stats)
           /\ (meanThroughput d', stddevThroughput d')
              = CalculateStats (throughputs d')
           /\ (meanFlowTime d', stddevFlowTime d')
              = CalculateStats (flowTimes d').
Proof.
  apply buckets_collect_flows_in_order.
  - exact sample_topology_ok.
  - vm_compute. lia.
Defined.

(** X6. A flow of no duration spoils its bucket: with the topology and the
    store of [main], if the table holds a flow of bucket [k] whose last
    reception carries the time of its first transmission, then after the
    processing the mean throughput of bucket [k] is no finite number and
    its standard deviation is a NaN. *)
Theorem zero_duration_flow_spoils_bucket (stats : list (FlowId * FlowStats))
    (classifier : FlowId -> FiveTuple)
    (dumbbells : list PointToPointDumbbellHelper)
    (expTimings : list (double * double)) (expData : list ExperimentData)
    (it : FlowId * FlowStats) (k : nat) :
  topology_ok dumbbells -> (10 <= length expData)%nat ->
  it ∈ stats ->
  classify dumbbells expTimings (classifier (fst it)) (snd it) = Some k ->
  timeLastRxPacket (snd it) = timeFirstTxPacket (snd it) ->
  is_finite (timeFirstTxPacket (snd it)) = true ->
  exists (expData' : list ExperimentData) (d' : ExperimentData),
    ProcessFlowMonitorResults stats classifier dumbbells expTimings expData
    = Some expData'
    /\ expData' !! k = Some d'
    /\ is_finite (meanThroughput d') = false
    /\ stddevThroughput d' = S754_nan.
Proof.
  intros Htop Hlen Hin Hclass Heq Hfin.
  destruct (flow_loop_collect classifier dumbbells expTimings stats expData Htop Hlen)
    as (mid & Hmid & Hl & Hall).
  pose proof (classify_bound _ _ _ _ _ Hclass) as Hk.
  destruct (lookup_lt_is_Some_2 expData k) as [d Hd]; [lia|].
  set (fs := flows_of_bucket classifier dumbbells expTimings k stats) in *.
  exists (map reduce mid), (reduce (add_flows fs d)).
  unfold ProcessFlowMonitorResults. rewrite Hmid.
  split; [reflexivity|]. split.
  { change (map reduce mid) with (reduce <$> mid).
    rewrite list_lookup_fmap, (Hall k d Hd). reflexivity. }
  assert (Hfs : snd it ∈ fs).
  { subst fs. unfold flows_of_bucket. apply list_elem_of_fmap.
    exists it. split; [reflexivity|]. apply list_elem_of_filter. auto. }
  assert (Hsample : throughput_of (snd it) ∈ throughputs (add_flows fs d)).
  { simpl. apply elem_of_app. right. apply list_elem_of_fmap. eauto. }
  pose proof (stats_of_non_finite_sample _ _ Hsample
                (zero_duration_throughput _ Heq Hfin)) as [Hmean Hstd].
  unfold reduce.
  destruct (CalculateStats (throughputs (add_flows fs d))) as [mT sT].
  destruct (CalculateStats (flowTimes (add_flows fs d))) as [mF sF].
  simpl in *. auto.
Qed.

Lemma zero_duration_flow_spoils_bucket_witness :
  exists (expData' : list ExperimentData) (d' : ExperimentData),
    ProcessFlowMonitorResults
      [(1, Sample.flow 10000000 1);
       (2, mkFlowStats 2000000 (of_Z 12) (of_Z 13) (of_Z 12))]
      Sample.classifier Sample.dumbbells main_expTimings main_experimentData
    = Some expData'
    /\ expData' !! 0%nat = Some d'
    /\ is_finite (meanThroughput d') = false
    /\ stddevThroughput d' = S754_nan.
Proof.
  apply (zero_duration_flow_spoils_bucket _ _ _ _ _
           (2, mkFlowStats 2000000 (of_Z 12) (of_Z 13) (of_Z 12))).
  - exact sample_topology_ok.
  - vm_compute. lia.
  - apply list_elem_of_In. simpl. auto.
  - vm_compute. reflexivity.
  - reflexivity.
  - reflexivity.
Defined.

(** ** Windows that no branch serves, instants that no window holds *)

(** X7. Only the first five windows are served: a flow whose first
    transmission lies first in a window of index 5 or more is appended to
    no bucket, whatever the topology and the store. *)
Theorem window_beyond_fifth_dropped (dumbbells : list PointToPointDumbbellHelper)
    (expTimings : list (double * double)) (tuple : FiveTuple) (st : FlowStats)
    (expData : list ExperimentData) (expIdx : nat) :
  first_window expTimings (timeFirstTxPacket st) expIdx ->
  (5 <= expIdx)%nat ->
  process_flow dumbbells expTimings tuple st expData = Some expData.
Proof.
  intros Hfirst Hidx.
  destruct (Z_le_gt_dec (rxBytes st) 1000000) as [Hle|Hgt].
  - apply process_flow_below. exact Hle.
  - rewrite (process_flow_at dumbbells expTimings tuple st expData expIdx
               ltac:(lia) Hfirst).
    apply attribute_beyond. exact Hidx.
Qed.

Lemma window_beyond_fifth_dropped_witness :
  process_flow Sample.dumbbells (main_expTimings ++ [(of_Z 156, of_Z 186)])
    (Sample.tuple_from (Sample.addr 10 3 1 1)) (Sample.flow 2000000 160)
    main_experimentData
  = Some main_experimentData.
Proof.
  apply (window_beyond_fifth_dropped _ _ _ _ _ 5%nat).
  - split.
    + exists (of_Z 156, of_Z 186). split; vm_compute; reflexivity.
    + intros j w Hj Hl.
      do 5 (destruct j as [|j]; [vm_compute in Hl; injection Hl as <-;
                                 vm_compute; reflexivity|]).
      lia.
  - lia.
Defined.

Lemma not_in_window_from (t e : double) (w : double * double) :
  leb e t = true -> ltb e (snd w) = false -> in_window t w = false.
Proof.
  intros Hle Hend. unfold in_window.
  destruct (t <? snd w)%D eqn:Hlt; [|apply andb_false_r].
  unfold ltb in *. rewrite (SFle_lt_trans e t (snd w) Hle Hlt) in Hend. discriminate.
Qed.

Lemma not_in_window_until (t s : double) (w : double * double) :
  ltb t s = true -> ltb (fst w) s = false -> in_window t w = false.
Proof.
  intros Hlt Hstart. unfold in_window, geb.
  destruct (SFleb (fst w) t) eqn:Hle; [|reflexivity].
  unfold ltb in *. rewrite (SFle_lt_trans (fst w) t s Hle Hlt) in Hstart. discriminate.
Qed.

(** X8. The windows are half-open and the schedule may leave gaps: a flow
    whose first transmission lies in [[e, s)] is appended to no bucket
    when every window ends no later than [e] or starts no earlier than
    [s]. *)
Theorem flow_in_gap_dropped (dumbbells : list PointToPointDumbbellHelper)
    (expTimings : list (double * double)) (tuple : FiveTuple) (st : FlowStats)
    (expData : list ExperimentData) (e s : double) :
  leb e (timeFirstTxPacket st) = true ->
  ltb (timeFirstTxPacket st) s = true ->
  outside_gap e s expTimings = true ->
  process_flow dumbbells expTimings tuple st expData = Some expData.
Proof.
  intros Hle Hlt Hgap. apply flow_outside_windows_discarded.
  unfold outside_gap in Hgap. rewrite forallb_forall in Hgap.
  apply Forall_forall. intros w Hw.
  specialize (Hgap w ltac:(apply list_elem_of_In; exact Hw)).
  apply orb_true_iff in Hgap as [H|H]; apply negb_true_iff in H.
  - exact (not_in_window_from _ e w Hle H).
  - exact (not_in_window_until _ s w Hlt H).
Qed.

Lemma flow_in_gap_dropped_witness :
  process_flow Sample.dumbbells main_expTimings
    (Sample.tuple_from (Sample.addr 10 1 1 1))
    (mkFlowStats 2000000 (of_Z 63 / of_Z 2)%D (of_Z 33) (of_Z 33))
    main_experimentData
  = Some main_experimentData.
Proof.
  apply (flow_in_gap_dropped _ _ _ _ _ (of_Z 31) (of_Z 32));
    vm_compute; reflexivity.
Defined.

(** ** What the attribution looks at *)

Lemma attribute_source_only (dumbbells : list PointToPointDumbbellHelper)
    (expIdx : nat) (tuple1 tuple2 : FiveTuple) (t f : double)
    (expData : list ExperimentData) :
  sourceAddress tuple1 = sourceAddress tuple2 ->
  attribute dumbbells expIdx tuple1 t f expData
  = attribute dumbbells expIdx tuple2 t f expData.
Proof.
  intros H. unfold attribute, source_is_left. rewrite H. reflexivity.
Qed.

Lemma window_loop_source_only (dumbbells : list PointToPointDumbbellHelper)
    (rest : list (double * double)) (tuple1 tuple2 : FiveTuple)
    (t f startTime : double) (expData : list ExperimentData) (n : nat) :
  sourceAddress tuple1 = sourceAddress tuple2 ->
  window_loop dumbbells n rest tuple1 t f startTime expData
  = window_loop dumbbells n rest tuple2 t f startTime expData.
Proof.
  intros H. revert n. induction rest as [|w rest IH]; intros n; simpl; [reflexivity|].
  destruct (_ && _); [apply attribute_source_only; exact H|apply IH].
Qed.

(** X16. Of the five-tuple of a flow, the attribution reads the source
    address only: destination, protocol and ports are never compared, so
    two flows with the same statistics and the same source address have
    the same effect on the store. *)
Theorem attribution_reads_source_only
    (dumbbells : list PointToPointDumbbellHelper)
    (expTimings : list (double * double)) (tuple1 tuple2 : FiveTuple)
    (st : FlowStats) (expData : list ExperimentData) :
  sourceAddress tuple1 = sourceAddress tuple2 ->
  process_flow dumbbells expTimings tuple1 st expData
  = process_flow dumbbells expTimings tuple2 st expData.
Proof.
  intros H. unfold process_flow.
  destruct (1000000 <? rxBytes st); [|reflexivity].
  apply window_loop_source_only. exact H.
Qed.

Lemma attribution_reads_source_only_witness :
  process_flow Sample.dumbbells main_expTimings
    (mkFiveTuple (Sample.addr 10 1 1 5) (Sample.addr 10 1 2 5) 6 49153 9001)
    (Sample.flow 2000000 40) main_experimentData
  = process_flow Sample.dumbbells main_expTimings
      (mkFiveTuple (Sample.addr 10 1 1 5) (Sample.addr 10 9 9 9) 17 7 7)
      (Sample.flow 2000000 40) main_experimentData.
Proof. apply attribution_reads_source_only. reflexivity. Defined.

(** ** The report and the size of the store *)

Section ReportBounds.

Local Open Scope string_scope.

Lemma report_of_buckets (filename : string) (expData : list ExperimentData)
    (b0 b1 b2 b3 b4 b5 b6 b7 b8 b9 : ExperimentData) :
  expData !! 0%nat = Some b0 -> expData !! 1%nat = Some b1 ->
  expData !! 2%nat = Some b2 -> expData !! 3%nat = Some b3 ->
  expData !! 4%nat = Some b4 -> expData !! 5%nat = Some b5 ->
  expData !! 6%nat = Some b6 -> expData !! 7%nat = Some b7 ->
  expData !! 8%nat = Some b8 -> expData !! 9%nat = Some b9 ->
  WriteResultsCsv filename expData
  = Some (unlines (report_rows b0 b2 b3 b4 b6 b7 b8 b9)).
Proof.
  intros H0 H1 H2 H3 H4 H5 H6 H7 H8 H9.
  unfold WriteResultsCsv, for_range. cbv zeta.
  change (seqZ 0 (5 - 0)) with [0; 1; 2; 3; 4]%Z.
  cbn [foldl]. bind_some.
  rewrite (throughput_row_spec expData 0 _ b0 b1 H0 H1). bind_some.
  rewrite (throughput_row_spec expData 1 _ b2 b3 H2 H3). bind_some.
  rewrite (throughput_row_spec expData 2 _ b4 b5 H4 H5). bind_some.
  rewrite (throughput_row_spec expData 3 _ b6 b7 H6 H7). bind_some.
  rewrite (throughput_row_spec expData 4 _ b8 b9 H8 H9). bind_some.
  cbn [foldl]. bind_some.
  rewrite (flow_time_row_spec expData 0 _ b0 b1 H0 H1). bind_some.
  rewrite (flow_time_row_spec expData 1 _ b2 b3 H2 H3). bind_some.
  rewrite (flow_time_row_spec expData 2 _ b4 b5 H4 H5). bind_some.
  rewrite (flow_time_row_spec expData 3 _ b6 b7 H6 H7). bind_some.
  rewrite (flow_time_row_spec expData 4 _ b8 b9 H8 H9).
  unfold report_rows, unlines. cbn [map concat_strings].
  unfold put, render, insert_string.
  cbn [Z.eqb orb Z.add Pos.add Pos.succ Pos.eqb].
  rewrite !append_assoc, append_nil_r. reflexivity.
Qed.

Lemma ten_buckets (expData : list ExperimentData) :
  (10 <= length expData)%nat ->
  exists b0 b1 b2 b3 b4 b5 b6 b7 b8 b9 : ExperimentData,
    expData !! 0%nat = Some b0 /\ expData !! 1%nat = Some b1
    /\ expData !! 2%nat = Some b2 /\ expData !! 3%nat = Some b3
    /\ expData !! 4%nat = Some b4 /\ expData !! 5%nat = Some b5
    /\ expData !! 6%nat = Some b6 /\ expData !! 7%nat = Some b7
    /\ expData !! 8%nat = Some b8 /\ expData !! 9%nat = Some b9.
Proof.
  intros Hlen.
  do 10 (destruct expData as [|? expData]; [simpl in Hlen; lia|]).
  repeat eexists.
Qed.

Lemma last_row_needs_ten (expData : list ExperimentData) (csvFile : option ofstream) :
  expData !! 9%nat = None ->
  csvFile ≫= write_throughput_row expData 4 = None.
Proof.
  intros H9. destruct csvFile as [csvFile|]; [|reflexivity]. simpl.
  unfold write_throughput_row. cbv zeta.
  change (Z.to_nat (4 * 2)) with 8%nat. change (Z.to_nat (4 * 2 + 1)) with 9%nat.
  destruct (expData !! 8%nat) as [first|]; [|reflexivity]. bind_some.
  rewrite write_samples_spec. bind_some.
  change ((4 =? 0) || (4 =? 2))%Z with false. cbv iota.
  rewrite H9. reflexivity.
Qed.

(** X9. The report needs ten buckets: [WriteResultsCsv] is defined exactly
    when the store holds at least ten; with fewer, it reads past the end
    of the store. *)
Theorem report_needs_ten_buckets (filename : string)
    (expData : list ExperimentData) :
  is_Some (WriteResultsCsv filename expData) <-> (10 <= length expData)%nat.
Proof.
  split.
  - intros [out Hout].
    destruct (decide (10 <= length expData)%nat) as [H|H]; [exact H|].
    exfalso. revert Hout.
    unfold WriteResultsCsv, for_range. cbv zeta.
    change (seqZ 0 (5 - 0)) with [0; 1; 2; 3; 4]%Z.
    cbn [foldl].
    rewrite (last_row_needs_ten expData _ (lookup_ge_None_2 expData 9 ltac:(lia))).
    discriminate.
  - intros Hlen.
    destruct (ten_buckets expData Hlen)
      as (b0 & b1 & b2 & b3 & b4 & b5 & b6 & b7 & b8 & b9
          & H0 & H1 & H2 & H3 & H4 & H5 & H6 & H7 & H8 & H9).
    rewrite (report_of_buckets filename expData b0 b1 b2 b3 b4 b5 b6 b7 b8 b9)
      by assumption.
    eauto.
Qed.



End ReportBounds.

(** ** Commas *)

Section Commas.

Local Open Scope string_scope.

Lemma count_char_append (c : ascii) (a b : string) :
  count_char c (a ++ b) = (count_char c a + count_char c b)%nat.
Proof. induction a as [|ch a IH]; simpl; [reflexivity|]. rewrite IH. lia. Qed.

Lemma numeric_no_comma (s : string) : numeric s -> commas s = 0%nat.
Proof.
  unfold numeric, commas. induction s as [|ch s IH]; [reflexivity|].
  cbn [count_char list_ascii_of_string].
  intros H. apply Forall_cons_1 in H as [Hch Hs]. rewrite (IH Hs).
  destruct (Ascii.eqb "," ch) eqn:E; [|reflexivity].
  apply Ascii.eqb_eq in E. subst ch. discriminate Hch.
Qed.

Lemma numeric_uint (d : Decimal.uint) : numeric (NilEmpty.string_of_uint d).
Proof.
  unfold numeric. induction d; simpl; constructor; try assumption; reflexivity.
Qed.

Lemma digits_numeric (n : Z) :
  Forall (fun c => numeric_char c = true) (Fmt.digits n).
Proof.
  unfold Fmt.digits, NilZero.string_of_uint.
  destruct (N.to_uint (Z.to_N n)) eqn:E;
    try (rewrite <- E; apply numeric_uint).
  repeat constructor.
Qed.

Lemma strip_numeric (ds : list ascii) :
  Forall (fun c => numeric_char c = true) ds ->
  Forall (fun c => numeric_char c = true) (Fmt.strip_trailing_zeros ds).
Proof.
  induction 1 as [|c rest Hc Hrest IH]; simpl; [constructor|].
  destruct (Fmt.strip_trailing_zeros rest) as [|c' rest'].
  - destruct (Ascii.eqb c "0"); repeat constructor; assumption.
  - constructor; assumption.
Qed.

Lemma fraction_numeric (ds : list ascii) :
  Forall (fun c => numeric_char c = true) ds ->
  Forall (fun c => numeric_char c = true) (Fmt.fraction ds).
Proof.
  destruct ds; simpl; intros H; [constructor|].
  constructor; [reflexivity|exact H].
Qed.

Lemma exponent_digits_numeric (n : Z) :
  Forall (fun c => numeric_char c = true) (Fmt.exponent_digits n).
Proof.
  unfold Fmt.exponent_digits. destruct (n <? 10)%Z.
  - constructor; [reflexivity|apply digits_numeric].
  - apply digits_numeric.
Qed.

Lemma fmt_g_numeric (num den : Z) :
  Forall (fun c => numeric_char c = true) (Fmt.fmt_g num den).
Proof.
  unfold Fmt.fmt_g.
  destruct (10 ^ Fmt.precision <=? _)%Z.
  all: repeat match goal with
         | |- context [if ?b then _ else _] => destruct b
         end.
  all: repeat first
         [ apply Forall_app_2
         | apply Forall_cons_2; [reflexivity|]
         | apply Forall_take
         | apply Forall_drop
         | apply Forall_replicate; reflexivity
         | apply fraction_numeric
         | apply strip_numeric
         | apply exponent_digits_numeric
         | apply digits_numeric ].
Qed.

(** A written double holds digits, a point, a sign, an exponent mark or
    the letters of [inf] and [nan], and nothing else. *)
Lemma fmt_double_numeric (x : double) : numeric (Fmt.fmt_double x).
Proof.
  unfold numeric, Fmt.fmt_double.
  rewrite list_ascii_of_string_of_list_ascii.
  destruct x as [s|s| |s m e]; try destruct s; simpl;
    repeat match goal with
      | |- context [if ?b then _ else _] => destruct b
      end;
    repeat first
      [ apply fmt_g_numeric
      | apply Forall_cons_2; [reflexivity|]
      | apply Forall_nil_2 ].
Qed.

Lemma fmt_int_numeric (n : Z) : numeric (Fmt.fmt_int n).
Proof.
  unfold Fmt.fmt_int, NilZero.string_of_int, NilZero.string_of_uint.
  destruct (Z.to_int n) as [d|d]; destruct d eqn:E;
    try (unfold numeric; simpl; repeat constructor; fail);
    rewrite <- E; try apply numeric_uint;
    (unfold numeric; simpl; constructor; [reflexivity|apply numeric_uint]).
Qed.

Lemma commas_samples (values : list double) :
  commas (concat_strings (map (fun v => Fmt.fmt_double v ++ ",") values))
  = length values.
Proof.
  unfold commas. induction values as [|v rest IH]; simpl; [reflexivity|].
  rewrite !count_char_append, IH.
  change (count_char "," (Fmt.fmt_double v)) with (commas (Fmt.fmt_double v)).
  rewrite (numeric_no_comma _ (fmt_double_numeric v)). reflexivity.
Qed.

Lemma commas_slot_columns (values : list double) (mean stddev : double)
    (unit : string) :
  commas (slot_columns values mean stddev unit)
  = (length (shown values) + 2 + commas unit)%nat.
Proof.
  unfold slot_columns, commas. rewrite !count_char_append.
  change (count_char "," (concat_strings ?l)) with (commas (concat_strings l)).
  rewrite commas_samples.
  change (count_char "," (Fmt.fmt_double mean)) with (commas (Fmt.fmt_double mean)).
  change (count_char "," (Fmt.fmt_double stddev)) with (commas (Fmt.fmt_double stddev)).
  rewrite !(numeric_no_comma _ (fmt_double_numeric _)).
  simpl. lia.
Qed.

Lemma commas_append (a b : string) : commas (a ++ b) = (commas a + commas b)%nat.
Proof. apply count_char_append. Qed.

Lemma commas_row (label : string) (n : Z) (cols rest : string) :
  commas (label ++ Fmt.fmt_int n ++ "," ++ cols ++ rest)
  = (commas label + 1 + commas cols + commas rest)%nat.
Proof.
  rewrite !commas_append.
  rewrite (numeric_no_comma _ (fmt_int_numeric n)).
  change (commas ",") with 1%nat. lia.
Qed.

(** X11. The fields of a row. A written number holds no comma, so the
    commas of a row are its separators: a throughput row of one slot has
    [4 + n1] of them (the last one trailing), a completion-time row of
    one slot [3 + n1], a row of two slots [6 + n1 + n2], where [n1] and
    [n2] count the samples shown for the slots; the header has 12. Rows
    are not padded: a row of two slots has the 12 separators of the
    header only when both slots show three samples. *)
Theorem row_separators (n : Z) (first second : ExperimentData) :
  commas header = 12%nat
  /\ commas (throughput_row_single n first)
     = (4 + length (shown (throughputs first)))%nat
  /\ commas (flow_time_row_single n first)
     = (3 + length (shown (flowTimes first)))%nat
  /\ commas (throughput_row_dual n first second)
     = (6 + length (shown (throughputs first))
        + length (shown (throughputs second)))%nat
  /\ commas (flow_time_row_dual n first second)
     = (6 + length (shown (flowTimes first))
        + length (shown (flowTimes second)))%nat.
Proof.
  unfold throughput_row_single, throughput_row_dual, flow_time_row_single,
    flow_time_row_dual, throughput_columns, flow_time_columns.
  rewrite <- (append_nil_r (slot_columns (flowTimes first) _ _ "sec")) at 1.
  rewrite !commas_row, !commas_append, !commas_slot_columns.
  change (commas "Mbps") with 0%nat. change (commas "sec") with 0%nat.
  change (commas "th_") with 0%nat. change (commas "afct_") with 0%nat.
  change (commas ",") with 1%nat. change (commas "") with 0%nat.
  split; [vm_compute; reflexivity|].
  repeat split; lia.
Qed.

End Commas.

(** ** Empty buckets *)

Section EmptyBucket.

Local Open Scope string_scope.

(** X12. A bucket without samples is written as [0,0] and the unit,
    whatever mean and standard deviation it held before the reduction. *)
Theorem empty_bucket_columns (d : ExperimentData) :
  (throughputs d = [] -> throughput_columns (reduce d) = "0,0,Mbps")
  /\ (flowTimes d = [] -> flow_time_columns (reduce d) = "0,0,sec").
Proof.
  unfold throughput_columns, flow_time_columns, reduce.
  split; intros H; rewrite H;
    destruct (CalculateStats _) as [m s] eqn:E;
    try (destruct (CalculateStats (flowTimes d)) as [m' s']);
    try (destruct (CalculateStats []) as [m' s'] eqn:E');
    simpl; try rewrite H;
    repeat match goal with
      | E0 : CalculateStats [] = _ |- _ => vm_compute in E0; injection E0 as <- <-
      end;
    vm_compute; reflexivity.
Qed.

Lemma empty_bucket_columns_witness :
  throughput_columns
    (reduce (mkExperimentData [] [] (of_Z 7) (of_Z 7) (of_Z 7) (of_Z 7)))
  = "0,0,Mbps"
  /\ flow_time_columns
       (reduce (mkExperimentData [] [] (of_Z 7) (of_Z 7) (of_Z 7) (of_Z 7)))
     = "0,0,sec".
Proof.
  destruct (empty_bucket_columns
              (mkExperimentData [] [] (of_Z 7) (of_Z 7) (of_Z 7) (of_Z 7)))
    as [HT HF].
  split; [apply HT|apply HF]; reflexivity.
Defined.

End EmptyBucket.

(** ** The applications of an experiment *)

Lemma SetupExperiment_one (dumbbell : nat) (port maxBytes : Z)
    (startTime endTime : double) :
  SetupExperiment dumbbell port maxBytes startTime endTime false []
  = [ mkApplication PacketSink dumbbell (RightLeaf 0) port startTime endTime;
      mkApplication (BulkSend (RightLeaf 0) maxBytes) dumbbell (LeftLeaf 0) port
        (startTime + of_Z 0)%D (startTime + of_Z 0 + of_Z 10)%D;
      mkApplication (BulkSend (RightLeaf 0) maxBytes) dumbbell (LeftLeaf 0) port
        (startTime + of_Z 10)%D (startTime + of_Z 10 + of_Z 10)%D;
      mkApplication (BulkSend (RightLeaf 0) maxBytes) dumbbell (LeftLeaf 0) port
        (startTime + of_Z 20)%D (startTime + of_Z 20 + of_Z 10)%D ].
Proof. reflexivity. Qed.

Lemma SetupExperiment_two (dumbbell : nat) (port maxBytes : Z)
    (startTime endTime : double) :
  SetupExperiment dumbbell port maxBytes startTime endTime true []
  = [ mkApplication PacketSink dumbbell (RightLeaf 0) port startTime endTime;
      mkApplication PacketSink dumbbell (RightLeaf 1) port startTime endTime;
      mkApplication (BulkSend (RightLeaf 0) maxBytes) dumbbell (LeftLeaf 0) port
        (startTime + of_Z 0)%D (startTime + of_Z 0 + of_Z 10)%D;
      mkApplication (BulkSend (RightLeaf 0) maxBytes) dumbbell (LeftLeaf 0) port
        (startTime + of_Z 10)%D (startTime + of_Z 10 + of_Z 10)%D;
      mkApplication (BulkSend (RightLeaf 0) maxBytes) dumbbell (LeftLeaf 0) port
        (startTime + of_Z 20)%D (startTime + of_Z 20 + of_Z 10)%D;
      mkApplication (BulkSend (RightLeaf 1) maxBytes) dumbbell (LeftLeaf 1) port
        (startTime + of_Z 0)%D (startTime + of_Z 0 + of_Z 10)%D;
      mkApplication (BulkSend (RightLeaf 1) maxBytes) dumbbell (LeftLeaf 1) port
        (startTime + of_Z 10)%D (startTime + of_Z 10 + of_Z 10)%D;
      mkApplication (BulkSend (RightLeaf 1) maxBytes) dumbbell (LeftLeaf 1) port
        (startTime + of_Z 20)%D (startTime + of_Z 20 + of_Z 10)%D ].
Proof. reflexivity. Qed.

(** X13. Every sender that [SetupExperiment] installs has its sink: it
    runs on a left leaf, carries the [maxBytes] of the call, and sends to
    the right leaf of the same index, where the same call installed a
    sink on the same dumbbell and port, open from [startTime] to
    [endTime]. A call installs 4 applications for one sender, 8 for
    two. *)
Theorem sender_has_sink (dumbbell : nat) (port maxBytes : Z)
    (startTime endTime : double) (twoSenders : bool) (a : Application)
    (remote : Node) (bytes : Z) :
  a ∈ SetupExperiment dumbbell port maxBytes startTime endTime twoSenders [] ->
  app_kind a = BulkSend remote bytes ->
  bytes = maxBytes
  /\ (exists leaf : nat, app_node a = LeftLeaf leaf /\ remote = RightLeaf leaf)
  /\ (exists s : Application,
        s ∈ SetupExperiment dumbbell port maxBytes startTime endTime twoSenders []
        /\ app_kind s = PacketSink /\ app_node s = remote
        /\ app_dumbbell s = app_dumbbell a /\ app_port s = app_port a
        /\ app_start s = startTime /\ app_stop s = endTime)
  /\ length (SetupExperiment dumbbell port maxBytes startTime endTime twoSenders [])
     = (if twoSenders then 8 else 4)%nat.
Proof.
  intros Hin Hkind.
  destruct twoSenders.
  - rewrite SetupExperiment_two in *.
    set (sink0 := mkApplication PacketSink dumbbell (RightLeaf 0) port startTime endTime).
    set (sink1 := mkApplication PacketSink dumbbell (RightLeaf 1) port startTime endTime).
    repeat (apply elem_of_cons in Hin as [->|Hin]); try (inversion Hin; fail);
      simpl in Hkind; try discriminate; injection Hkind as <- <-;
      (split; [reflexivity|]); (split; [eexists; split; reflexivity|]);
      (split; [|reflexivity]).
    1-3: exists sink0; repeat split; apply list_elem_of_In; simpl; auto.
    all: exists sink1; repeat split; apply list_elem_of_In; simpl; auto.
  - rewrite SetupExperiment_one in *.
    set (sink0 := mkApplication PacketSink dumbbell (RightLeaf 0) port startTime endTime).
    repeat (apply elem_of_cons in Hin as [->|Hin]); try (inversion Hin; fail);
      simpl in Hkind; try discriminate; injection Hkind as <- <-;
      (split; [reflexivity|]); (split; [eexists; split; reflexivity|]);
      (split; [|reflexivity]).
    all: exists sink0; repeat split; apply list_elem_of_In; simpl; auto.
Qed.

Lemma sender_has_sink_witness :
  50 = 50
  /\ (exists leaf : nat, LeftLeaf 1 = LeftLeaf leaf /\ RightLeaf 1 = RightLeaf leaf)
  /\ (exists s : Application,
        s ∈ SetupExperiment 0 9001 50 (of_Z 32) (of_Z 62) true []
        /\ app_kind s = PacketSink /\ app_node s = RightLeaf 1
        /\ app_dumbbell s = 0%nat /\ app_port s = 9001
        /\ app_start s = of_Z 32 /\ app_stop s = of_Z 62)
  /\ length (SetupExperiment 0 9001 50 (of_Z 32) (of_Z 62) true []) = 8%nat.
Proof.
  apply (sender_has_sink 0 9001 50 (of_Z 32) (of_Z 62) true
           (mkApplication (BulkSend (RightLeaf 1) 50) 0 (LeftLeaf 1) 9001
              (of_Z 32 + of_Z 10)%D (of_Z 32 + of_Z 10 + of_Z 10)%D)).
  - apply list_elem_of_In. rewrite SetupExperiment_two. simpl. tauto.
  - reflexivity.
Defined.

(** ** [main] *)

(** X14. The runs that [main] installs fit its schedule: each of the 24
    sender runs starts inside the window of one experiment and inside no
    other, stops by the end of that window, and runs on the dumbbell and
    on a left leaf that the classification expects for that
    experiment. *)
Theorem main_runs_fit_windows :
  exists apps : list Application,
    main_applications = Some apps
    /\ length (filter (fun a => is_sender a = true) apps) = 24%nat
    /\ forall a : Application,
         a ∈ apps -> is_sender a = true ->
         exists expIdx : nat,
           run_fits expIdx a = true
           /\ forall (j : nat) (w : double * double),
                j <> expIdx -> main_expTimings !! j = Some w ->
                in_window (app_start a) w = false.
Proof.
  destruct main_applications as [apps|] eqn:Happs; [|vm_compute in Happs; discriminate].
  exists apps. split; [reflexivity|].
  assert (Hcount : length (filter (fun a => is_sender a = true) apps) = 24%nat).
  { vm_compute in Happs. injection Happs as <-. vm_compute. reflexivity. }
  split; [exact Hcount|].
  assert (Hall : forallb (fun a => negb (is_sender a)
                                   || existsb (fun i => run_fits i a) (seq 0 5))
                   apps = true).
  { vm_compute in Happs. injection Happs as <-. vm_compute. reflexivity. }
  rewrite forallb_forall in Hall.
  intros a Hin Hsender.
  specialize (Hall a ltac:(apply list_elem_of_In; exact Hin)).
  rewrite Hsender in Hall. cbn [negb orb] in Hall.
  apply existsb_exists in Hall as (expIdx & _ & Hfit).
  exists expIdx. split; [exact Hfit|].
  intros j w Hj Hw. unfold run_fits in Hfit.
  destruct (main_expTimings !! expIdx) as [we|] eqn:Hwe; [|discriminate].
  destruct (main_experiments !! expIdx); [|discriminate].
  destruct (app_node a); [|discriminate].
  apply andb_true_iff in Hfit as [Hfit _].
  apply andb_true_iff in Hfit as [Hfit _].
  apply andb_true_iff in Hfit as [Hfit _].
  apply (main_windows_disjoint expIdx j we w);
    [congruence|exact Hwe|exact Hw|exact Hfit].
Qed.

Section Main.

Local Open Scope string_scope.

Lemma report_rows_newline_free (b0 b2 b3 b4 b6 b7 b8 b9 : ExperimentData) :
  Forall newline_free (report_rows b0 b2 b3 b4 b6 b7 b8 b9).
Proof.
  unfold report_rows.
  repeat match goal with
    | |- Forall newline_free (_ :: _) => apply Forall_cons_2
    | |- Forall newline_free [] => apply Forall_nil_2
    end;
    first
      [ apply throughput_row_single_newline_free
      | apply throughput_row_dual_newline_free
      | apply flow_time_row_single_newline_free
      | apply flow_time_row_dual_newline_free
      | unfold newline_free; cbv; repeat (constructor; [discriminate|]); constructor ].
Qed.

(** X15. Whatever flow table the simulation produces, [main] ends well on
    the topology it builds: it never reads past the end of a vector, it
    writes a report of eleven lines to [tcp_srjamana.csv] and returns 0.
    The line it prints names another file, [tcp_Sharan.csv], and not the
    one it wrote. *)
Theorem main_always_reports (stats : list (FlowId * FlowStats))
    (classifier : FlowId -> FiveTuple)
    (dumbbells : list PointToPointDumbbellHelper) :
  topology_ok dumbbells ->
  exists (out : Outcome) (rows : list string),
    main stats classifier dumbbells = Some out
    /\ file_name out = "tcp_srjamana.csv"
    /\ file_content out = unlines rows
    /\ length rows = 11%nat
    /\ Forall newline_free rows
    /\ exit_status out = 0
    /\ occurs "tcp_Sharan.csv" (printed out) = true
    /\ occurs (file_name out) (printed out) = false.
Proof.
  intros Htop. unfold main. cbv zeta.
  destruct (flow_loop_total classifier dumbbells main_expTimings stats
              main_experimentData Htop ltac:(vm_compute; lia))
    as (mid & Hmid & Hl).
  unfold ProcessFlowMonitorResults. rewrite Hmid. bind_some.
  destruct (ten_buckets (map reduce mid))
    as (b0 & b1 & b2 & b3 & b4 & b5 & b6 & b7 & b8 & b9
        & H0 & H1 & H2 & H3 & H4 & H5 & H6 & H7 & H8 & H9).
  { rewrite length_map, Hl. vm_compute. lia. }
  rewrite (report_of_buckets _ _ b0 b1 b2 b3 b4 b5 b6 b7 b8 b9) by assumption.
  bind_some.
  eexists. exists (report_rows b0 b2 b3 b4 b6 b7 b8 b9).
  split; [reflexivity|].
  split; [reflexivity|]. split; [reflexivity|]. split; [reflexivity|].
  split; [apply report_rows_newline_free|].
  split; [reflexivity|]. split; vm_compute; reflexivity.
Qed.

Lemma main_always_reports_witness :
  exists (out : Outcome) (rows : list string),
    main Sample.stats Sample.classifier Sample.dumbbells = Some out
    /\ file_name out = "tcp_srjamana.csv"
    /\ file_content out = unlines rows
    /\ length rows = 11%nat
    /\ Forall newline_free rows
    /\ exit_status out = 0
    /\ occurs "tcp_Sharan.csv" (printed out) = true
    /\ occurs (file_name out) (printed out) = false.
Proof. apply main_always_reports. exact sample_topology_ok. Defined.

End Main.
